(** * Property application layer of react-native-windows

    A shallow embedding of
    [vnext/Microsoft.ReactNative/Utils/PropertyUtils.h]: the edge and
    corner resolvers [GetThickness] and [GetCornerRadius], and the
    family of [TryUpdate...] dispatchers that apply one
    (property name, property value) pair to a XAML element and to the
    shadow node that owns its edge and corner arrays. *)

From Stdlib Require Import ZArith Bool List String Lia.
From Stdlib Require Import Floats.SpecFloat.
Import ListNotations.

(** ** C++ [double]

    IEEE 754 binary64 values, as the Standard Library's [spec_float]
    (signed zeros, infinities, NaN and finite [m * 2^e]).  The header
    never does arithmetic on them: it copies them, compares them with
    [!=] and takes [std::max]. *)
Module Double.

Definition double : Set := spec_float.

Definition prec : Z := 53.
Definition emax : Z := 1024.

(** [static_cast<double>(n)] of an integer, round to nearest even. *)
Definition of_Z (n : Z) : double := binary_normalize prec emax n 0 false.

(** The literal [0] / [0.0]. *)
Definition zero : double := S754_zero false.

(** [x == y], [x != y], [x < y], [x <= y]: false on NaN except [!=]. *)
Definition eqb (x y : double) : bool := SFeqb x y.
Definition neqb (x y : double) : bool := negb (SFeqb x y).
Definition ltb (x y : double) : bool := SFltb x y.
Definition leb (x y : double) : bool := SFleb x y.

(** [std::max<double>(a, b)] is [(a < b) ? b : a]. *)
Definition max (a b : double) : double := if ltb a b then b else a.

(** [static_cast<int32_t>(d)]: truncation toward zero; the result is
    undefined (here [None]) when the truncated value does not fit, and
    for infinities and NaN. *)
Definition trunc (d : double) : option Z :=
  match d with
  | S754_zero _ => Some 0%Z
  | S754_finite s m e =>
      let a := match e with
               | Z0 => Zpos m
               | Zpos p => Z.shiftl (Zpos m) (Zpos p)
               | Zneg p => Z.shiftr (Zpos m) (Zpos p)
               end in
      Some (if s then Z.opp a else a)
  | S754_infinity _ | S754_nan => None
  end.

(** An integer survives the trip to [double] and back: converting it
    and truncating the result gives the same integer. *)
Definition exact_int (n : Z) : bool :=
  match trunc (of_Z n) with
  | Some z => Z.eqb z n
  | None => false
  end.

Definition to_int32 (d : double) : option Z :=
  match trunc d with
  | Some z => if (Z.leb (- 2147483648) z && Z.leb z 2147483647)%bool
              then Some z else None
  | None => None
  end.

End Double.

Abbreviation double := Double.double.

Declare Scope double_scope.
Delimit Scope double_scope with double.
Infix "!=" := Double.neqb (at level 70, no associativity) : double_scope.
Infix "==" := Double.eqb (at level 70, no associativity) : double_scope.

(** ** Edge and corner arrays, resolved structures *)

(** [enum ShadowEdges]; an array [double a[CountEdges]] indexed by
  [(int)edge] is a total map from the nine edges. *)
Module ShadowEdges.
Inductive t : Set :=
| Left | Top | Right | Bottom | Start | End_ | Horizontal | Vertical
| AllEdges.

Definition eqb (a b : t) : bool :=
  match a, b with
  | Left, Left | Top, Top | Right, Right | Bottom, Bottom
  | Start, Start | End_, End_ | Horizontal, Horizontal
  | Vertical, Vertical | AllEdges, AllEdges => true
  | _, _ => false
  end.
End ShadowEdges.

(** [enum ShadowCorners]. *)
Module ShadowCorners.
Inductive t : Set :=
| TopLeft | TopRight | BottomRight | BottomLeft
| TopStart | TopEnd | BottomStart | BottomEnd | AllCorners.

Definition eqb (a b : t) : bool :=
  match a, b with
  | TopLeft, TopLeft | TopRight, TopRight | BottomRight, BottomRight
  | BottomLeft, BottomLeft | TopStart, TopStart | TopEnd, TopEnd
  | BottomStart, BottomStart | BottomEnd, BottomEnd
  | AllCorners, AllCorners => true
  | _, _ => false
  end.
End ShadowCorners.

Definition EdgeArray : Type := ShadowEdges.t -> double.
Definition CornerArray : Type := ShadowCorners.t -> double.

(** [a[(int)edge] = v]. *)
Definition set_edge (a : EdgeArray) (edge : ShadowEdges.t) (v : double)
: EdgeArray :=
fun e => if ShadowEdges.eqb edge e then v else a e.

Definition set_corner (a : CornerArray) (corner : ShadowCorners.t)
(v : double) : CornerArray :=
fun c => if ShadowCorners.eqb corner c then v else a c.

(** [xaml::Thickness]. *)
Module Thickness.
Record t : Set := mk { Left : double; Top : double;
                       Right : double; Bottom : double }.

Definition with_Left (x : t) (v : double) := mk v (Top x) (Right x) (Bottom x).
Definition with_Top (x : t) (v : double) := mk (Left x) v (Right x) (Bottom x).
Definition with_Right (x : t) (v : double) := mk (Left x) (Top x) v (Bottom x).
Definition with_Bottom (x : t) (v : double) := mk (Left x) (Top x) (Right x) v.

(** [operator==] of the projected struct: field by field, with [==]. *)
Definition eqb (x y : t) : bool :=
  (Left x == Left y)%double && (Top x == Top y)%double
  && (Right x == Right y)%double && (Bottom x == Bottom y)%double.
Definition neqb (x y : t) : bool := negb (eqb x y).

(** [xaml::ThicknessHelper::FromUniformLength]. *)
Definition FromUniformLength (v : double) : t := mk v v v v.
End Thickness.

(** [xaml::CornerRadius]. *)
Module CornerRadius.
Record t : Set := mk { TopLeft : double; TopRight : double;
                       BottomRight : double; BottomLeft : double }.
End CornerRadius.

(** ** The resolver *)

Section Resolver.

(** [c_UndefinedEdge] is declared [extern] in [Views/ShadowNodeBase.h];
    the resolver is parametric in it. *)
Variable c_UndefinedEdge : double.

Definition DefaultOrOverride (defaultValue x : double) : double :=
  if (x != c_UndefinedEdge)%double then x else defaultValue.

Definition GetThickness (thicknesses : EdgeArray) : Thickness.t :=
  let defaultWidth := Double.max Double.zero (thicknesses ShadowEdges.AllEdges) in
  let startWidth :=
    DefaultOrOverride (thicknesses ShadowEdges.Left) (thicknesses ShadowEdges.Start) in
  let endWidth :=
    DefaultOrOverride (thicknesses ShadowEdges.Right) (thicknesses ShadowEdges.End_) in
  let thickness := Thickness.mk defaultWidth defaultWidth defaultWidth defaultWidth in
  let thickness :=
    if (thicknesses ShadowEdges.Horizontal != c_UndefinedEdge)%double
    then Thickness.with_Left
           (Thickness.with_Right thickness (thicknesses ShadowEdges.Horizontal))
           (thicknesses ShadowEdges.Horizontal)
    else thickness in
  let thickness :=
    if (thicknesses ShadowEdges.Vertical != c_UndefinedEdge)%double
    then Thickness.with_Top
           (Thickness.with_Bottom thickness (thicknesses ShadowEdges.Vertical))
           (thicknesses ShadowEdges.Vertical)
    else thickness in
  let thickness :=
    if (startWidth != c_UndefinedEdge)%double
    then Thickness.with_Left thickness startWidth else thickness in
  let thickness :=
    if (endWidth != c_UndefinedEdge)%double
    then Thickness.with_Right thickness endWidth else thickness in
  let thickness :=
    if (thicknesses ShadowEdges.Top != c_UndefinedEdge)%double
    then Thickness.with_Top thickness (thicknesses ShadowEdges.Top)
    else thickness in
  let thickness :=
    if (thicknesses ShadowEdges.Bottom != c_UndefinedEdge)%double
    then Thickness.with_Bottom thickness (thicknesses ShadowEdges.Bottom)
    else thickness in
  thickness.

Definition GetCornerRadius (cornerRadii : CornerArray) : CornerRadius.t :=
  let defaultRadius :=
    Double.max Double.zero (cornerRadii ShadowCorners.AllCorners) in
  let topStartRadius :=
    DefaultOrOverride (cornerRadii ShadowCorners.TopLeft)
                      (cornerRadii ShadowCorners.TopStart) in
  let topEndRadius :=
    DefaultOrOverride (cornerRadii ShadowCorners.TopRight)
                      (cornerRadii ShadowCorners.TopEnd) in
  let bottomStartRadius :=
    DefaultOrOverride (cornerRadii ShadowCorners.BottomLeft)
                      (cornerRadii ShadowCorners.BottomStart) in
  let bottomEndRadius :=
    DefaultOrOverride (cornerRadii ShadowCorners.BottomRight)
                      (cornerRadii ShadowCorners.BottomEnd) in
  {| CornerRadius.TopLeft := DefaultOrOverride defaultRadius topStartRadius;
     CornerRadius.TopRight := DefaultOrOverride defaultRadius topEndRadius;
     CornerRadius.BottomLeft := DefaultOrOverride defaultRadius bottomStartRadius;
     CornerRadius.BottomRight := DefaultOrOverride defaultRadius bottomEndRadius |}.

End Resolver.

(** ** Outcomes of a call

    A call returns, or leaves through a folly exception ([TypeError],
    [ConversionError]), or has no defined behaviour in C++. *)
Inductive Outcome (A : Type) : Type :=
| Returns (a : A)
| Throws
| Undefined.

Arguments Returns {A} a.
Arguments Throws {A}.
Arguments Undefined {A}.

(** ** [folly::dynamic]

    The seven dynamic types.  The header never looks inside an array or
    an object, so their contents are left out. *)
Inductive dynamic : Set :=
| DNull
| DArray
| DBool (b : bool)
| DDouble (d : double)
| DInt64 (n : Z)
| DObject
| DString (s : string).

Definition isNull (v : dynamic) : bool :=
  match v with DNull => true | _ => false end.

Definition isNumber (v : dynamic) : bool :=
  match v with DDouble _ | DInt64 _ => true | _ => false end.

Definition isString (v : dynamic) : bool :=
  match v with DString _ => true | _ => false end.

(** [getString] throws [TypeError] unless the value is a string. *)
Definition getString (v : dynamic) : Outcome string :=
  match v with DString s => Returns s | _ => Throws end.

Section FollyConversions.

(** folly's [to<double>(string)] and [to<bool>(string)], which parse
    the text or throw [ConversionError] ([None]).  Its
    [to<double>(int64_t)] is checked as well: it converts, converts the
    result back, and throws [ConversionError] unless that gives the
    integer it started from. *)
Variable str_to_double : string -> option double.
Variable str_to_bool : string -> option bool.

Definition asDouble (v : dynamic) : Outcome double :=
  match v with
  | DInt64 n =>
      if Double.exact_int n then Returns (Double.of_Z n) else Throws
  | DDouble d => Returns d
  | DBool b => Returns (if b then Double.of_Z 1 else Double.zero)
  | DString s =>
      match str_to_double s with Some d => Returns d | None => Throws end
  | DNull | DArray | DObject => Throws
  end.

Definition asBool (v : dynamic) : Outcome bool :=
  match v with
  | DInt64 n => Returns (negb (Z.eqb n 0))
  | DDouble d => Returns (d != Double.zero)%double
  | DBool b => Returns b
  | DString s =>
      match str_to_bool s with Some b => Returns b | None => Throws end
  | DNull | DArray | DObject => Throws
  end.

End FollyConversions.

(** ** The toolkit's value types *)

(** Modelled from the spec: [BrushFrom] of [Utils/ValueUtils.h] and the
    process-wide [DefaultBrushStore::GetDefaultBorderBrush] are absent.
    A brush is "a toolkit-level paint/color resource"; only where it
    comes from is recorded.  A null brush is [None : option Brush]. *)
Inductive Brush : Set :=
| BrushFrom (v : dynamic)
| GetDefaultBorderBrush.

(** Modelled from the spec: [IsValidColorValue] of [Utils/ValueUtils.h]
    is absent; the dispatch table gives "number -> color". *)
Definition IsValidColorValue (v : dynamic) : bool := isNumber v.

(** [Windows::UI::Text::FontWeight] and the two named weights used. *)
Module FontWeight.
Record t : Set := mk { Weight : Z }.
End FontWeight.

Module FontWeights.
Definition Normal : FontWeight.t := FontWeight.mk 400.
Definition Bold : FontWeight.t := FontWeight.mk 700.
End FontWeights.

Module FontStyle.
Inductive t : Set := Normal | Oblique | Italic.
End FontStyle.

Module TextAlignment.
Inductive t : Set := Center | Left | Right | Justify | DetectFromContent.
End TextAlignment.

Module TextTrimming.
Inductive t : Set := None | CharacterEllipsis | WordEllipsis | Clip.
End TextTrimming.

(** A flags enumeration: [|] is bitwise or. *)
Module TextDecorations.
Definition None : Z := 0.
Definition Underline : Z := 1.
Definition Strikethrough : Z := 2.
End TextDecorations.

Module FlowDirection.
Inductive t : Set := LeftToRight | RightToLeft.
End FlowDirection.

Module Orientation.
Inductive t : Set := Vertical | Horizontal.
End Orientation.

(** ** The element

    A XAML element is a store of dependency properties: each one holds a
    local value or none, and [ClearValue] removes the local value so
    that the toolkit default shows again. *)
Inductive DependencyProperty : Set :=
| BackgroundProperty | ForegroundProperty | BorderBrushProperty
| BorderThicknessProperty | PaddingProperty | CornerRadiusProperty
| FontSizeProperty | FontFamilyProperty | FontWeightProperty
| FontStyleProperty | TextAlignmentProperty | TextTrimmingProperty
| TextDecorationsProperty | FlowDirectionProperty
| CharacterSpacingProperty | OrientationProperty.

Definition DependencyProperty_eqb (p q : DependencyProperty) : bool :=
  match p, q with
  | BackgroundProperty, BackgroundProperty
  | ForegroundProperty, ForegroundProperty
  | BorderBrushProperty, BorderBrushProperty
  | BorderThicknessProperty, BorderThicknessProperty
  | PaddingProperty, PaddingProperty
  | CornerRadiusProperty, CornerRadiusProperty
  | FontSizeProperty, FontSizeProperty
  | FontFamilyProperty, FontFamilyProperty
  | FontWeightProperty, FontWeightProperty
  | FontStyleProperty, FontStyleProperty
  | TextAlignmentProperty, TextAlignmentProperty
  | TextTrimmingProperty, TextTrimmingProperty
  | TextDecorationsProperty, TextDecorationsProperty
  | FlowDirectionProperty, FlowDirectionProperty
  | CharacterSpacingProperty, CharacterSpacingProperty
  | OrientationProperty, OrientationProperty => true
  | _, _ => false
  end.

Inductive PropertyValue : Set :=
| VBrush (b : Brush)
| VThickness (t : Thickness.t)
| VCornerRadius (r : CornerRadius.t)
| VDouble (d : double)
| VFontFamily (name : string)
| VFontWeight (w : FontWeight.t)
| VFontStyle (s : FontStyle.t)
| VTextAlignment (a : TextAlignment.t)
| VTextTrimming (t : TextTrimming.t)
| VTextDecorations (flags : Z)
| VFlowDirection (d : FlowDirection.t)
| VInt32 (n : Z)
| VOrientation (o : Orientation.t).

(** Modelled from the spec: the Resource Brush Coordinator
    ([Utils/ResourceBrushUtils.h]) is absent and "a black box" with
    refresh-background, refresh-foreground and refresh-border, each
    taking the element and a brush or none.  The element keeps the
    refreshes it received, newest first. *)
Inductive ResourceRefresh : Set :=
| RefreshBackground (brush : option Brush)
| RefreshForeground (brush : option Brush)
| RefreshBorder (brush : option Brush).

Record Element : Type := mkElement {
  local : DependencyProperty -> option PropertyValue;
  refreshes : list ResourceRefresh
}.

(** ** The shadow node: the fields of [ShadowNodeBase] the header uses. *)
Record ShadowNodeBase : Type := mkNode {
  m_padding : EdgeArray;
  m_border : EdgeArray;
  m_cornerRadius : CornerArray;
  m_onMouseEnter : bool;
  m_onMouseLeave : bool;
  m_onMouseMove : bool
}.

Definition with_m_padding (n : ShadowNodeBase) (a : EdgeArray) :=
  mkNode a (m_border n) (m_cornerRadius n)
         (m_onMouseEnter n) (m_onMouseLeave n) (m_onMouseMove n).
Definition with_m_border (n : ShadowNodeBase) (a : EdgeArray) :=
  mkNode (m_padding n) a (m_cornerRadius n)
         (m_onMouseEnter n) (m_onMouseLeave n) (m_onMouseMove n).
Definition with_m_cornerRadius (n : ShadowNodeBase) (a : CornerArray) :=
  mkNode (m_padding n) (m_border n) a
         (m_onMouseEnter n) (m_onMouseLeave n) (m_onMouseMove n).
Definition with_m_onMouseEnter (n : ShadowNodeBase) (b : bool) :=
  mkNode (m_padding n) (m_border n) (m_cornerRadius n)
         b (m_onMouseLeave n) (m_onMouseMove n).
Definition with_m_onMouseLeave (n : ShadowNodeBase) (b : bool) :=
  mkNode (m_padding n) (m_border n) (m_cornerRadius n)
         (m_onMouseEnter n) b (m_onMouseMove n).
Definition with_m_onMouseMove (n : ShadowNodeBase) (b : bool) :=
  mkNode (m_padding n) (m_border n) (m_cornerRadius n)
         (m_onMouseEnter n) (m_onMouseLeave n) b.

(** ** The state a dispatcher runs in

    A dispatcher receives a pointer to the node and a reference to the
    element and mutates both in place: a computation threads the pair. *)
Record World : Type := mkWorld {
  node : ShadowNodeBase;
  element : Element
}.

Definition M (A : Type) : Type := World -> Outcome (A * World).

Definition ret {A} (a : A) : M A := fun w => Returns (a, w).

Definition bind {A B} (c : M A) (k : A -> M B) : M B :=
  fun w =>
    match c w with
    | Returns (a, w') => k a w'
    | Throws => Throws
    | Undefined => Undefined
    end.

Definition lift {A} (o : Outcome A) : M A :=
  fun w =>
    match o with
    | Returns a => Returns (a, w)
    | Throws => Throws
    | Undefined => Undefined
    end.

Declare Scope prop_scope.
Delimit Scope prop_scope with prop.
Notation "x <- c ;; k" := (bind c (fun x => k))
  (at level 61, c at next level, right associativity) : prop_scope.
Notation "c ;; k" := (bind c (fun _ => k))
  (at level 61, right associativity) : prop_scope.
Notation "'skip'" := (ret tt) : prop_scope.

Definition getNode : M ShadowNodeBase := fun w => Returns (node w, w).

Definition putNode (n : ShadowNodeBase) : M unit :=
  fun w => Returns (tt, mkWorld n (element w)).

(** The element with the local value of [p] replaced. *)
Definition with_local (e : Element) (p : DependencyProperty)
  (v : option PropertyValue) : Element :=
  mkElement (fun q => if DependencyProperty_eqb p q then v else local e q)
            (refreshes e).

(** The element after one more refresh of its resource brushes. *)
Definition with_refresh (e : Element) (r : ResourceRefresh) : Element :=
  mkElement (local e) (r :: refreshes e).

(** [element.SetValue(p, v)], behind every typed setter. *)
Definition SetValue (p : DependencyProperty) (v : PropertyValue) : M unit :=
  fun w => Returns (tt, mkWorld (node w) (with_local (element w) p (Some v))).

(** [element.ClearValue(p)]. *)
Definition ClearValue (p : DependencyProperty) : M unit :=
  fun w => Returns (tt, mkWorld (node w) (with_local (element w) p None)).

(** The getter [element.BorderThickness()]: the local value, or the
    toolkit default, a thickness of 0 on every side. *)
Definition effective_BorderThickness (e : Element) : Thickness.t :=
  match local e BorderThicknessProperty with
  | Some (VThickness t) => t
  | _ => Thickness.FromUniformLength Double.zero
  end.

(** The getter [element.BorderBrush()]: the local brush, or null. *)
Definition effective_BorderBrush (e : Element) : option Brush :=
  match local e BorderBrushProperty with
  | Some (VBrush b) => Some b
  | _ => None
  end.

(** [!brush]: the brush reference is null. *)
Definition is_null (brush : option Brush) : bool :=
  match brush with Some _ => false | None => true end.

Definition get_BorderThickness : M Thickness.t :=
  fun w => Returns (effective_BorderThickness (element w), w).

Definition get_BorderBrush : M (option Brush) :=
  fun w => Returns (effective_BorderBrush (element w), w).

Definition refresh (r : ResourceRefresh) : M unit :=
  fun w => Returns (tt, mkWorld (node w) (with_refresh (element w) r)).

Definition UpdateControlBackgroundResourceBrushes (brush : option Brush) :=
  refresh (RefreshBackground brush).
Definition UpdateControlForegroundResourceBrushes (brush : option Brush) :=
  refresh (RefreshForeground brush).
Definition UpdateControlBorderResourceBrushes (brush : option Brush) :=
  refresh (RefreshBorder brush).

(** ** The dispatchers *)

Local Open Scope string_scope.
Local Open Scope prop_scope.

(** [edgeTypeMap]: an [unordered_map] with distinct keys, so a lookup
    is the first matching entry. *)
Definition edgeTypeMap : list (string * ShadowEdges.t) :=
  [ ("borderLeftWidth", ShadowEdges.Left);
    ("borderTopWidth", ShadowEdges.Top);
    ("borderRightWidth", ShadowEdges.Right);
    ("borderBottomWidth", ShadowEdges.Bottom);
    ("borderStartWidth", ShadowEdges.Start);
    ("borderEndWidth", ShadowEdges.End_);
    ("borderWidth", ShadowEdges.AllEdges) ].

(** [map.find(key)]: [None] is [map.end()]. *)
Fixpoint find {V : Type} (map : list (string * V)) (key : string)
  : option V :=
  match map with
  | [] => None
  | (k, v) :: rest => if String.eqb key k then Some v else find rest key
  end.

Section Dispatchers.

Variable c_UndefinedEdge : double.
Variable str_to_double : string -> option double.
Variable str_to_bool : string -> option bool.

(** The function-local [static bool isTextDecorationsSupported] of
    [TryUpdateTextDecorationLine]: asked of the platform once. *)
Variable isTextDecorationsSupported : bool.

Definition UpdatePadding (edge : ShadowEdges.t) (margin : double) : M unit :=
  n <- getNode ;;
  let n := with_m_padding n (set_edge (m_padding n) edge margin) in
  putNode n ;;
  let thickness := GetThickness c_UndefinedEdge (m_padding n) in
  SetValue PaddingProperty (VThickness thickness).

Definition SetBorderThickness (edge : ShadowEdges.t) (margin : double)
  : M unit :=
  n <- getNode ;;
  let n := with_m_border n (set_edge (m_border n) edge margin) in
  putNode n ;;
  let thickness := GetThickness c_UndefinedEdge (m_border n) in
  SetValue BorderThicknessProperty (VThickness thickness).

Definition SetBorderBrush (brush : Brush) : M unit :=
  SetValue BorderBrushProperty (VBrush brush).

Definition TryUpdateBackgroundBrush (propertyName : string)
  (propertyValue : dynamic) : M bool :=
  if propertyName =? "backgroundColor" then
    (if IsValidColorValue propertyValue then
       let brush := BrushFrom propertyValue in
       SetValue BackgroundProperty (VBrush brush) ;;
       UpdateControlBackgroundResourceBrushes (Some brush)
     else if isNull propertyValue then
       ClearValue BackgroundProperty ;;
       UpdateControlBackgroundResourceBrushes None
     else skip) ;;
    ret true
  else ret false.

Definition UpdateCornerRadiusValueOnNode (corner : ShadowCorners.t)
  (propertyValue : dynamic) : M unit :=
  if isNumber propertyValue then
    d <- lift (asDouble str_to_double propertyValue) ;;
    n <- getNode ;;
    putNode (with_m_cornerRadius n (set_corner (m_cornerRadius n) corner d))
  else
    n <- getNode ;;
    putNode (with_m_cornerRadius n
               (set_corner (m_cornerRadius n) corner c_UndefinedEdge)).

Definition UpdateCornerRadiusOnElement : M unit :=
  n <- getNode ;;
  let cornerRadius := GetCornerRadius c_UndefinedEdge (m_cornerRadius n) in
  SetValue CornerRadiusProperty (VCornerRadius cornerRadius).

Definition TryUpdateForeground (propertyName : string)
  (propertyValue : dynamic) : M bool :=
  if propertyName =? "color" then
    (if IsValidColorValue propertyValue then
       let brush := BrushFrom propertyValue in
       SetValue ForegroundProperty (VBrush brush) ;;
       UpdateControlForegroundResourceBrushes (Some brush)
     else if isNull propertyValue then
       ClearValue ForegroundProperty ;;
       UpdateControlForegroundResourceBrushes None
     else skip) ;;
    ret true
  else ret false.

Definition TryUpdateBorderProperties (propertyName : string)
  (propertyValue : dynamic) : M bool :=
  if propertyName =? "borderColor" then
    (if IsValidColorValue propertyValue then
       let brush := BrushFrom propertyValue in
       SetValue BorderBrushProperty (VBrush brush) ;;
       UpdateControlBorderResourceBrushes (Some brush)
     else if isNull propertyValue then
       t <- get_BorderThickness ;;
       (if Thickness.neqb t (Thickness.FromUniformLength Double.zero) then
          SetValue BorderBrushProperty (VBrush GetDefaultBorderBrush)
        else
          ClearValue BorderBrushProperty) ;;
       UpdateControlBorderResourceBrushes None
     else skip) ;;
    ret true
  else
    match find edgeTypeMap propertyName with
    | Some edge =>
        (if isNumber propertyValue then
           d <- lift (asDouble str_to_double propertyValue) ;;
           SetBorderThickness edge d ;;
           d' <- lift (asDouble str_to_double propertyValue) ;;
           brush <- get_BorderBrush ;;
           if ((d' != Double.zero)%double && is_null brush)%bool
           then SetValue BorderBrushProperty (VBrush GetDefaultBorderBrush)
           else skip
         else if isNull propertyValue then
           SetBorderThickness edge Double.zero
         else skip) ;;
        ret true
    | None => ret false
    end.

(** One arm of [TryUpdatePadding]. *)
Definition padding_arm (edge : ShadowEdges.t) (propertyValue : dynamic)
  : M unit :=
  if isNumber propertyValue then
    d <- lift (asDouble str_to_double propertyValue) ;;
    UpdatePadding edge d
  else skip.

Definition TryUpdatePadding (propertyName : string)
  (propertyValue : dynamic) : M bool :=
  if propertyName =? "paddingLeft" then
    padding_arm ShadowEdges.Left propertyValue ;; ret true
  else if propertyName =? "paddingTop" then
    padding_arm ShadowEdges.Top propertyValue ;; ret true
  else if propertyName =? "paddingRight" then
    padding_arm ShadowEdges.Right propertyValue ;; ret true
  else if propertyName =? "paddingBottom" then
    padding_arm ShadowEdges.Bottom propertyValue ;; ret true
  else if propertyName =? "paddingStart" then
    padding_arm ShadowEdges.Start propertyValue ;; ret true
  else if propertyName =? "paddingEnd" then
    padding_arm ShadowEdges.End_ propertyValue ;; ret true
  else if propertyName =? "paddingHorizontal" then
    padding_arm ShadowEdges.Horizontal propertyValue ;; ret true
  else if propertyName =? "paddingVertical" then
    padding_arm ShadowEdges.Vertical propertyValue ;; ret true
  else if propertyName =? "padding" then
    padding_arm ShadowEdges.AllEdges propertyValue ;; ret true
  else ret false.

Definition TryUpdateCornerRadiusOnNode (propertyName : string)
  (propertyValue : dynamic) : M bool :=
  if propertyName =? "borderTopLeftRadius" then
    UpdateCornerRadiusValueOnNode ShadowCorners.TopLeft propertyValue ;;
    ret true
  else if propertyName =? "borderTopRightRadius" then
    UpdateCornerRadiusValueOnNode ShadowCorners.TopRight propertyValue ;;
    ret true
  else if propertyName =? "borderTopStartRadius" then
    UpdateCornerRadiusValueOnNode ShadowCorners.TopStart propertyValue ;;
    ret true
  else if propertyName =? "borderTopEndRadius" then
    UpdateCornerRadiusValueOnNode ShadowCorners.TopEnd propertyValue ;;
    ret true
  else if propertyName =? "borderBottomRightRadius" then
    UpdateCornerRadiusValueOnNode ShadowCorners.BottomRight propertyValue ;;
    ret true
  else if propertyName =? "borderBottomLeftRadius" then
    UpdateCornerRadiusValueOnNode ShadowCorners.BottomLeft propertyValue ;;
    ret true
  else if propertyName =? "borderBottomStartRadius" then
    UpdateCornerRadiusValueOnNode ShadowCorners.BottomStart propertyValue ;;
    ret true
  else if propertyName =? "borderBottomEndRadius" then
    UpdateCornerRadiusValueOnNode ShadowCorners.BottomEnd propertyValue ;;
    ret true
  else if propertyName =? "borderRadius" then
    UpdateCornerRadiusValueOnNode ShadowCorners.AllCorners propertyValue ;;
    ret true
  else ret false.

(** The token chain of the [fontWeight] arm. *)
Definition fontWeight_of (value : string) : FontWeight.t :=
  if value =? "normal" then FontWeights.Normal
  else if value =? "bold" then FontWeights.Bold
  else if value =? "100" then FontWeight.mk 100
  else if value =? "200" then FontWeight.mk 200
  else if value =? "300" then FontWeight.mk 300
  else if value =? "400" then FontWeight.mk 400
  else if value =? "500" then FontWeight.mk 500
  else if value =? "600" then FontWeight.mk 600
  else if value =? "700" then FontWeight.mk 700
  else if value =? "800" then FontWeight.mk 800
  else if value =? "900" then FontWeight.mk 900
  else FontWeights.Normal.

Definition TryUpdateFontProperties (propertyName : string)
  (propertyValue : dynamic) : M bool :=
  if propertyName =? "fontSize" then
    (if isNumber propertyValue then
       d <- lift (asDouble str_to_double propertyValue) ;;
       SetValue FontSizeProperty (VDouble d)
     else if isNull propertyValue then ClearValue FontSizeProperty
     else skip) ;;
    ret true
  else if propertyName =? "fontFamily" then
    (if isString propertyValue then
       s <- lift (getString propertyValue) ;;
       SetValue FontFamilyProperty (VFontFamily s)
     else if isNull propertyValue then ClearValue FontFamilyProperty
     else skip) ;;
    ret true
  else if propertyName =? "fontWeight" then
    (if isString propertyValue then
       value <- lift (getString propertyValue) ;;
       let fontWeight := fontWeight_of value in
       SetValue FontWeightProperty (VFontWeight fontWeight)
     else if isNull propertyValue then ClearValue FontWeightProperty
     else skip) ;;
    ret true
  else if propertyName =? "fontStyle" then
    (if isString propertyValue then
       s <- lift (getString propertyValue) ;;
       SetValue FontStyleProperty
         (VFontStyle (if s =? "italic" then FontStyle.Italic
                      else FontStyle.Normal))
     else if isNull propertyValue then ClearValue FontStyleProperty
     else skip) ;;
    ret true
  else ret false.

Definition SetTextAlignment (value : string) : M unit :=
  if value =? "left" then
    SetValue TextAlignmentProperty (VTextAlignment TextAlignment.Left)
  else if value =? "right" then
    SetValue TextAlignmentProperty (VTextAlignment TextAlignment.Right)
  else if value =? "center" then
    SetValue TextAlignmentProperty (VTextAlignment TextAlignment.Center)
  else if value =? "justify" then
    SetValue TextAlignmentProperty (VTextAlignment TextAlignment.Justify)
  else
    SetValue TextAlignmentProperty
      (VTextAlignment TextAlignment.DetectFromContent).

Definition TryUpdateTextAlignment (propertyName : string)
  (propertyValue : dynamic) : M bool :=
  if propertyName =? "textAlign" then
    (if isString propertyValue then
       value <- lift (getString propertyValue) ;;
       SetTextAlignment value
     else if isNull propertyValue then ClearValue TextAlignmentProperty
     else skip) ;;
    ret true
  else ret false.

Definition SetTextTrimming (value : string) : M unit :=
  if value =? "clip" then
    SetValue TextTrimmingProperty (VTextTrimming TextTrimming.Clip)
  else if ((value =? "head") || (value =? "middle") || (value =? "tail"))%bool
  then
    SetValue TextTrimmingProperty
      (VTextTrimming TextTrimming.CharacterEllipsis)
  else
    SetValue TextTrimmingProperty (VTextTrimming TextTrimming.None).

Definition TryUpdateTextTrimming (propertyName : string)
  (propertyValue : dynamic) : M bool :=
  if propertyName =? "ellipsizeMode" then
    (if isString propertyValue then
       value <- lift (getString propertyValue) ;;
       SetTextTrimming value
     else if isNull propertyValue then ClearValue TextTrimmingProperty
     else skip) ;;
    ret true
  else ret false.

Definition TryUpdateTextDecorationLine (propertyName : string)
  (propertyValue : dynamic) : M bool :=
  if propertyName =? "textDecorationLine" then
    if negb isTextDecorationsSupported then ret true
    else
      (if isString propertyValue then
         value <- lift (getString propertyValue) ;;
         let decorations :=
           if value =? "none" then TextDecorations.None
           else if value =? "underline" then TextDecorations.Underline
           else if value =? "line-through" then TextDecorations.Strikethrough
           else if value =? "underline line-through" then
             Z.lor TextDecorations.Underline TextDecorations.Strikethrough
           else TextDecorations.None in
         SetValue TextDecorationsProperty (VTextDecorations decorations)
       else if isNull propertyValue then ClearValue TextDecorationsProperty
       else skip) ;;
      ret true
  else ret false.

Definition SetFlowDirection (value : string) : M unit :=
  if value =? "rtl" then
    SetValue FlowDirectionProperty (VFlowDirection FlowDirection.RightToLeft)
  else if value =? "ltr" then
    SetValue FlowDirectionProperty (VFlowDirection FlowDirection.LeftToRight)
  else
    ClearValue FlowDirectionProperty.

Definition TryUpdateFlowDirection (propertyName : string)
  (propertyValue : dynamic) : M bool :=
  if ((propertyName =? "writingDirection") || (propertyName =? "direction"))%bool
  then
    (if isString propertyValue then
       value <- lift (getString propertyValue) ;;
       SetFlowDirection value
     else if isNull propertyValue then ClearValue FlowDirectionProperty
     else skip) ;;
    ret true
  else ret false.

Definition TryUpdateCharacterSpacing (propertyName : string)
  (propertyValue : dynamic) : M bool :=
  if ((propertyName =? "letterSpacing")
      || (propertyName =? "characterSpacing"))%bool
  then
    (if isNumber propertyValue then
       d <- lift (asDouble str_to_double propertyValue) ;;
       match Double.to_int32 d with
       | Some n => SetValue CharacterSpacingProperty (VInt32 n)
       | None => fun _ => Undefined
       end
     else if isNull propertyValue then ClearValue CharacterSpacingProperty
     else skip) ;;
    ret true
  else ret false.

Definition TryUpdateOrientation (propertyName : string)
  (propertyValue : dynamic) : M bool :=
  if propertyName =? "orientation" then
    (if isNull propertyValue then ClearValue OrientationProperty
     else if isString propertyValue then
       valueString <- lift (getString propertyValue) ;;
       if valueString =? "horizontal" then
         SetValue OrientationProperty (VOrientation Orientation.Horizontal)
       else if valueString =? "vertical" then
         SetValue OrientationProperty (VOrientation Orientation.Vertical)
       else skip
     else skip) ;;
    ret true
  else ret false.

(** [!propertyValue.isNull() && propertyValue.asBool()]: [&&] does not
    evaluate [asBool] on a null. *)
Definition mouse_flag (propertyValue : dynamic) : M bool :=
  if negb (isNull propertyValue) then lift (asBool str_to_bool propertyValue)
  else ret false.

Definition TryUpdateMouseEvents (propertyName : string)
  (propertyValue : dynamic) : M bool :=
  if propertyName =? "onMouseEnter" then
    b <- mouse_flag propertyValue ;;
    n <- getNode ;; putNode (with_m_onMouseEnter n b) ;;
    ret true
  else if propertyName =? "onMouseLeave" then
    b <- mouse_flag propertyValue ;;
    n <- getNode ;; putNode (with_m_onMouseLeave n b) ;;
    ret true
  else if propertyName =? "onMouseMove" then
    b <- mouse_flag propertyValue ;;
    n <- getNode ;; putNode (with_m_onMouseMove n b) ;;
    ret true
  else ret false.

(** The thirteen groups of the dispatch table, and the try-apply entry
    point of each. *)
Inductive Group : Set :=
| GBackground | GForeground | GBorder | GPadding | GCornerRadius | GFont
| GTextAlignment | GTextTrimming | GTextDecoration | GFlowDirection
| GCharacterSpacing | GOrientation | GMouseEvents.

Definition try_apply (g : Group) : string -> dynamic -> M bool :=
  match g with
  | GBackground => TryUpdateBackgroundBrush
  | GForeground => TryUpdateForeground
  | GBorder => TryUpdateBorderProperties
  | GPadding => TryUpdatePadding
  | GCornerRadius => TryUpdateCornerRadiusOnNode
  | GFont => TryUpdateFontProperties
  | GTextAlignment => TryUpdateTextAlignment
  | GTextTrimming => TryUpdateTextTrimming
  | GTextDecoration => TryUpdateTextDecorationLine
  | GFlowDirection => TryUpdateFlowDirection
  | GCharacterSpacing => TryUpdateCharacterSpacing
  | GOrientation => TryUpdateOrientation
  | GMouseEvents => TryUpdateMouseEvents
  end.

End Dispatchers.

(** The names each group recognises, as the dispatch table of the
    specification lists them. *)
Definition recognized (g : Group) : list string :=
  match g with
  | GBackground => ["backgroundColor"]
  | GForeground => ["color"]
  | GBorder =>
      ["borderColor"; "borderLeftWidth"; "borderTopWidth"; "borderRightWidth";
       "borderBottomWidth"; "borderStartWidth"; "borderEndWidth"; "borderWidth"]
  | GPadding =>
      ["padding"; "paddingLeft"; "paddingTop"; "paddingRight"; "paddingBottom";
       "paddingStart"; "paddingEnd"; "paddingHorizontal"; "paddingVertical"]
  | GCornerRadius =>
      ["borderRadius"; "borderTopLeftRadius"; "borderTopRightRadius";
       "borderTopStartRadius"; "borderTopEndRadius"; "borderBottomLeftRadius";
       "borderBottomRightRadius"; "borderBottomStartRadius";
       "borderBottomEndRadius"]
  | GFont => ["fontSize"; "fontFamily"; "fontWeight"; "fontStyle"]
  | GTextAlignment => ["textAlign"]
  | GTextTrimming => ["ellipsizeMode"]
  | GTextDecoration => ["textDecorationLine"]
  | GFlowDirection => ["writingDirection"; "direction"]
  | GCharacterSpacing => ["letterSpacing"; "characterSpacing"]
  | GOrientation => ["orientation"]
  | GMouseEvents => ["onMouseEnter"; "onMouseLeave"; "onMouseMove"]
  end.

(** The closed set of [fontWeight] tokens. *)
Definition fontWeight_tokens : list string :=
  ["normal"; "bold"; "100"; "200"; "300"; "400"; "500"; "600"; "700";
   "800"; "900"].

(** A slot of the data model: the sentinel, or a number [>= 0]. *)
Definition slot_ok (c_UndefinedEdge x : double) : bool :=
  (x == c_UndefinedEdge)%double || Double.leb Double.zero x.

(** A slot is defined when the header's own test [x != c_UndefinedEdge]
    says so, and the sentinel otherwise. *)
Definition defined (c_UndefinedEdge x : double) : Prop :=
  (x != c_UndefinedEdge)%double = true.

Definition undefined (c_UndefinedEdge x : double) : Prop :=
  (x != c_UndefinedEdge)%double = false.

Definition Thickness_all (P : double -> bool) (t : Thickness.t) : bool :=
  P (Thickness.Left t) && P (Thickness.Top t)
  && P (Thickness.Right t) && P (Thickness.Bottom t).

Definition CornerRadius_all (P : double -> bool) (r : CornerRadius.t)
  : bool :=
  P (CornerRadius.TopLeft r) && P (CornerRadius.TopRight r)
  && P (CornerRadius.BottomLeft r) && P (CornerRadius.BottomRight r).

(** ** Sample inputs, with [-1] for the sentinel *)

Definition minus_one : double := Double.of_Z (-1).

Definition edges_left1_start2 : EdgeArray :=
  fun e =>
    match e with
    | ShadowEdges.Left => Double.of_Z 1
    | ShadowEdges.Start => Double.of_Z 2
    | ShadowEdges.Right => Double.of_Z 3
    | ShadowEdges.End_ => Double.of_Z 4
    | _ => minus_one
    end.

Definition corners_physical_and_logical : CornerArray :=
  fun c =>
    match c with
    | ShadowCorners.TopLeft => Double.of_Z 1
    | ShadowCorners.TopStart => Double.of_Z 2
    | ShadowCorners.TopRight => Double.of_Z 3
    | ShadowCorners.TopEnd => Double.of_Z 4
    | ShadowCorners.BottomLeft => Double.of_Z 5
    | ShadowCorners.BottomStart => Double.of_Z 6
    | ShadowCorners.BottomRight => Double.of_Z 7
    | ShadowCorners.BottomEnd => Double.of_Z 8
    | ShadowCorners.AllCorners => minus_one
    end.

Definition edges_only_all (v : double) : EdgeArray :=
  fun e => match e with ShadowEdges.AllEdges => v | _ => minus_one end.

Definition corners_bottomRight5_all2 : CornerArray :=
  fun c =>
    match c with
    | ShadowCorners.BottomRight => Double.of_Z 5
    | ShadowCorners.AllCorners => Double.of_Z 2
    | _ => minus_one
    end.

Definition edges_mixed : EdgeArray :=
  fun e =>
    match e with
    | ShadowEdges.Top => Double.of_Z 7
    | ShadowEdges.Horizontal => Double.of_Z 3
    | ShadowEdges.AllEdges => Double.of_Z 2
    | _ => minus_one
    end.

(** The seven border-width names of [edgeTypeMap]. *)
Definition border_width_names : list string :=
  ["borderWidth"; "borderLeftWidth"; "borderTopWidth"; "borderRightWidth";
   "borderBottomWidth"; "borderStartWidth"; "borderEndWidth"].

(** The value is one of the two tokens the [orientation] arm maps. *)
Definition orientation_token (v : dynamic) : bool :=
  match v with
  | DString s => (s =? "horizontal") || (s =? "vertical")
  | _ => false
  end.

(** A node whose arrays hold the sentinel in every slot, and an element
    without local values. *)
Definition fresh_node : ShadowNodeBase :=
  mkNode (fun _ => minus_one) (fun _ => minus_one) (fun _ => minus_one)
         false false false.

Definition fresh_element : Element := mkElement (fun _ => None) [].

Definition fresh_world : World := mkWorld fresh_node fresh_element.

Definition horizontal_world : World :=
  mkWorld fresh_node
    (with_local fresh_element OrientationProperty
       (Some (VOrientation Orientation.Horizontal))).

Definition bordered_world : World :=
  mkWorld (with_m_border fresh_node
             (set_edge (m_border fresh_node) ShadowEdges.AllEdges
                       (Double.of_Z 1)))
    (with_local fresh_element BorderThicknessProperty
       (Some (VThickness (Thickness.FromUniformLength (Double.of_Z 1))))).

(** No folly string parser is exercised by the samples. *)
Definition no_parse {A : Type} (s : string) : option A := None.

(** [x] is 0 or the value of one of the slots of [a]. *)
Definition zero_or_slot {K : Type} (a : K -> double) (x : double) : Prop :=
  x = Double.zero \/ exists k, x = a k.

(** The double a numeric arm reads: defined when [isNumber] holds and
    [asDouble] returns, and then what it returns.  An integer that
    [double] cannot hold exactly has none: [asDouble] throws on it. *)
Definition number_value (v : dynamic) : option double :=
  match v with
  | DInt64 n => if Double.exact_int n then Some (Double.of_Z n) else None
  | DDouble d => Some d
  | _ => None
  end.

(** A number [asDouble] cannot convert: an integer that [double] does
    not hold exactly. *)
Definition inexact_integer (v : dynamic) : bool :=
  match v with
  | DInt64 n => negb (Double.exact_int n)
  | _ => false
  end.

(** The groups none of whose arms converts a number. *)
Definition converts_no_number (g : Group) : bool :=
  match g with
  | GBackground | GForeground | GTextAlignment | GTextTrimming
  | GTextDecoration | GFlowDirection | GOrientation => true
  | _ => false
  end.

(** Each border-width name with the edge its words name. *)
Definition border_width_edges : list (string * ShadowEdges.t) :=
  [ ("borderWidth", ShadowEdges.AllEdges);
    ("borderLeftWidth", ShadowEdges.Left);
    ("borderTopWidth", ShadowEdges.Top);
    ("borderRightWidth", ShadowEdges.Right);
    ("borderBottomWidth", ShadowEdges.Bottom);
    ("borderStartWidth", ShadowEdges.Start);
    ("borderEndWidth", ShadowEdges.End_) ].

(** The arms of [TryUpdatePadding] and of [TryUpdateCornerRadiusOnNode]:
    each name with the slot it writes. *)
Definition padding_edges : list (string * ShadowEdges.t) :=
  [ ("paddingLeft", ShadowEdges.Left);
    ("paddingTop", ShadowEdges.Top);
    ("paddingRight", ShadowEdges.Right);
    ("paddingBottom", ShadowEdges.Bottom);
    ("paddingStart", ShadowEdges.Start);
    ("paddingEnd", ShadowEdges.End_);
    ("paddingHorizontal", ShadowEdges.Horizontal);
    ("paddingVertical", ShadowEdges.Vertical);
    ("padding", ShadowEdges.AllEdges) ].

Definition corner_names : list (string * ShadowCorners.t) :=
  [ ("borderTopLeftRadius", ShadowCorners.TopLeft);
    ("borderTopRightRadius", ShadowCorners.TopRight);
    ("borderTopStartRadius", ShadowCorners.TopStart);
    ("borderTopEndRadius", ShadowCorners.TopEnd);
    ("borderBottomRightRadius", ShadowCorners.BottomRight);
    ("borderBottomLeftRadius", ShadowCorners.BottomLeft);
    ("borderBottomStartRadius", ShadowCorners.BottomStart);
    ("borderBottomEndRadius", ShadowCorners.BottomEnd);
    ("borderRadius", ShadowCorners.AllCorners) ].

(** Two worlds that hold the same values: slot by slot, flag by flag and
    property by property. *)
Definition same_world (w1 w2 : World) : Prop :=
  (forall e, m_padding (node w1) e = m_padding (node w2) e)
  /\ (forall e, m_border (node w1) e = m_border (node w2) e)
  /\ (forall k, m_cornerRadius (node w1) k = m_cornerRadius (node w2) k)
  /\ m_onMouseEnter (node w1) = m_onMouseEnter (node w2)
  /\ m_onMouseLeave (node w1) = m_onMouseLeave (node w2)
  /\ m_onMouseMove (node w1) = m_onMouseMove (node w2)
  /\ (forall p, local (element w1) p = local (element w2) p)
  /\ refreshes (element w1) = refreshes (element w2).

(** The Padding and BorderThickness an element shows, when it has them,
    are the resolutions of the node's current arrays. *)
Definition applied_in_sync (u : double) (w : World) : Prop :=
  (local (element w) PaddingProperty = None
   \/ local (element w) PaddingProperty
      = Some (VThickness (GetThickness u (m_padding (node w)))))
  /\ (local (element w) BorderThicknessProperty = None
      \/ local (element w) BorderThicknessProperty
         = Some (VThickness (GetThickness u (m_border (node w))))).

(** The brush a brush-valued property holds locally, or null. *)
Definition local_brush (e : Element) (p : DependencyProperty)
  : option Brush :=
  match local e p with
  | Some (VBrush b) => Some b
  | _ => None
  end.

(** The groups whose arms convert a value only under its own type test. *)
Definition guarded (g : Group) : bool :=
  match g with
  | GCharacterSpacing | GMouseEvents => false
  | _ => true
  end.

(** The groups that skip a value of a type they do not act on. *)
Definition skips_mismatch (g : Group) : bool :=
  match g with
  | GCornerRadius | GMouseEvents => false
  | _ => true
  end.

(** The token sets of the text arms. *)
Definition textAlign_tokens : list string :=
  ["left"; "right"; "center"; "justify"].
Definition ellipsizeMode_tokens : list string :=
  ["clip"; "head"; "middle"; "tail"].
Definition textDecorationLine_tokens : list string :=
  ["none"; "underline"; "line-through"; "underline line-through"].
Definition direction_tokens : list string := ["rtl"; "ltr"].

(** The data model on a node: every slot of the three arrays is the
    sentinel or a number [>= 0]. *)
Definition arrays_ok (u : double) (w : World) : Prop :=
  (forall e, slot_ok u (m_padding (node w) e) = true)
  /\ (forall e, slot_ok u (m_border (node w) e) = true)
  /\ (forall k, slot_ok u (m_cornerRadius (node w) k) = true).

(** A value that carries no negative or NaN number. *)
Definition value_ok (v : dynamic) : bool :=
  match v with
  | DInt64 n => Double.leb Double.zero (Double.of_Z n)
  | DDouble d => Double.leb Double.zero d
  | _ => true
  end.

(** * Properties *)

(** ** Comparisons of doubles *)

Lemma nonneg_is_defined (u x : double) :
  Double.leb Double.zero u = false -> Double.leb Double.zero x = true ->
  defined u x.
Proof.
  unfold defined, Double.leb, Double.neqb, SFleb, SFeqb.
  destruct u as [[|]|[|]| |[|] mu eu], x as [[|]|[|]| |[|] mx ex];
    cbn; try discriminate; reflexivity.
Qed.

Lemma undefined_max_zero (u x : double) :
  Double.leb Double.zero u = false -> undefined u x ->
  Double.max Double.zero x = Double.zero.
Proof.
  unfold undefined, Double.max, Double.ltb, Double.leb, Double.neqb,
    SFltb, SFleb, SFeqb.
  destruct u as [[|]|[|]| |[|] mu eu], x as [[|]|[|]| |[|] mx ex];
    cbn; try discriminate; reflexivity.
Qed.

Lemma defined_slot_nonneg (u x : double) :
  slot_ok u x = true -> defined u x -> Double.leb Double.zero x = true.
Proof.
  unfold slot_ok, defined, Double.neqb, Double.eqb.
  intros H D. apply negb_true_iff in D. rewrite D in H. exact H.
Qed.

Lemma max_zero_nonneg (x : double) :
  Double.leb Double.zero (Double.max Double.zero x) = true.
Proof.
  unfold Double.max, Double.ltb, Double.leb, SFltb, SFleb.
  destruct x as [[|]|[|]| |[|] m e]; reflexivity.
Qed.

Lemma max_zero_eqb (v : double) :
  Double.leb Double.zero v = true ->
  (Double.max Double.zero v == v)%double = true.
Proof.
  unfold Double.max, Double.ltb, Double.leb, Double.eqb, SFltb, SFleb, SFeqb.
  destruct v as [[|]|[|]| |[|] m e]; cbn; try discriminate; try reflexivity.
  intros _. now rewrite Z.compare_refl, Pos.compare_cont_refl.
Qed.

Lemma max_zero_id (v : double) :
  Double.leb Double.zero v = true -> v <> S754_zero true ->
  Double.max Double.zero v = v.
Proof.
  unfold Double.max, Double.ltb, Double.leb, SFltb, SFleb.
  destruct v as [[|]|[|]| |[|] m e]; cbn; try discriminate; try reflexivity.
  intros _ H. now elim H.
Qed.

(** ** The resolver, field by field *)

Section ResolverEquations.

Variable u : double.
Variable a : EdgeArray.
Variable c : CornerArray.

Lemma GetThickness_Left :
  Thickness.Left (GetThickness u a) =
  let startWidth :=
    DefaultOrOverride u (a ShadowEdges.Left) (a ShadowEdges.Start) in
  if (startWidth != u)%double then startWidth
  else if (a ShadowEdges.Horizontal != u)%double then a ShadowEdges.Horizontal
  else Double.max Double.zero (a ShadowEdges.AllEdges).
Proof.
  unfold GetThickness. cbv zeta.
  repeat match goal with
         | |- context [if ?b then _ else _] => destruct b
         end; reflexivity.
Qed.

Lemma GetThickness_Right :
  Thickness.Right (GetThickness u a) =
  let endWidth :=
    DefaultOrOverride u (a ShadowEdges.Right) (a ShadowEdges.End_) in
  if (endWidth != u)%double then endWidth
  else if (a ShadowEdges.Horizontal != u)%double then a ShadowEdges.Horizontal
  else Double.max Double.zero (a ShadowEdges.AllEdges).
Proof.
  unfold GetThickness. cbv zeta.
  repeat match goal with
         | |- context [if ?b then _ else _] => destruct b
         end; reflexivity.
Qed.

Lemma GetThickness_Top :
  Thickness.Top (GetThickness u a) =
  if (a ShadowEdges.Top != u)%double then a ShadowEdges.Top
  else if (a ShadowEdges.Vertical != u)%double then a ShadowEdges.Vertical
  else Double.max Double.zero (a ShadowEdges.AllEdges).
Proof.
  unfold GetThickness. cbv zeta.
  repeat match goal with
         | |- context [if ?b then _ else _] => destruct b
         end; reflexivity.
Qed.

Lemma GetThickness_Bottom :
  Thickness.Bottom (GetThickness u a) =
  if (a ShadowEdges.Bottom != u)%double then a ShadowEdges.Bottom
  else if (a ShadowEdges.Vertical != u)%double then a ShadowEdges.Vertical
  else Double.max Double.zero (a ShadowEdges.AllEdges).
Proof.
  unfold GetThickness. cbv zeta.
  repeat match goal with
         | |- context [if ?b then _ else _] => destruct b
         end; reflexivity.
Qed.

End ResolverEquations.

(** ** Physical and logical slots *)

(** What the resolver does when both slots of a pair are defined: the
    logical slot is the one that is used.  For every edge array in which
    both Left and Start are defined, [GetThickness] resolves left to the
    Start slot's value (and right to End's when Right and End are both
    defined); for every corner array in which a physical corner slot and
    its logical counterpart are both defined, [GetCornerRadius] resolves
    that corner to the logical slot's value. *)
Theorem logical_slot_overrides_physical
  (u : double) (edges : EdgeArray) (corners : CornerArray) :
  (defined u (edges ShadowEdges.Left) -> defined u (edges ShadowEdges.Start) ->
   Thickness.Left (GetThickness u edges) = edges ShadowEdges.Start)
  /\ (defined u (edges ShadowEdges.Right) -> defined u (edges ShadowEdges.End_) ->
      Thickness.Right (GetThickness u edges) = edges ShadowEdges.End_)
  /\ (defined u (corners ShadowCorners.TopLeft) ->
      defined u (corners ShadowCorners.TopStart) ->
      CornerRadius.TopLeft (GetCornerRadius u corners)
      = corners ShadowCorners.TopStart)
  /\ (defined u (corners ShadowCorners.TopRight) ->
      defined u (corners ShadowCorners.TopEnd) ->
      CornerRadius.TopRight (GetCornerRadius u corners)
      = corners ShadowCorners.TopEnd)
  /\ (defined u (corners ShadowCorners.BottomLeft) ->
      defined u (corners ShadowCorners.BottomStart) ->
      CornerRadius.BottomLeft (GetCornerRadius u corners)
      = corners ShadowCorners.BottomStart)
  /\ (defined u (corners ShadowCorners.BottomRight) ->
      defined u (corners ShadowCorners.BottomEnd) ->
      CornerRadius.BottomRight (GetCornerRadius u corners)
      = corners ShadowCorners.BottomEnd).
Proof.
  unfold defined.
  repeat apply conj; intros _ H.
  - rewrite GetThickness_Left. cbv zeta. unfold DefaultOrOverride.
    now rewrite !H.
  - rewrite GetThickness_Right. cbv zeta. unfold DefaultOrOverride.
    now rewrite !H.
  - cbn. unfold DefaultOrOverride. now rewrite !H.
  - cbn. unfold DefaultOrOverride. now rewrite !H.
  - cbn. unfold DefaultOrOverride. now rewrite !H.
  - cbn. unfold DefaultOrOverride. now rewrite !H.
Qed.

Lemma logical_slot_overrides_physical_witness :
  Thickness.Left (GetThickness minus_one edges_left1_start2) = Double.of_Z 2
  /\ Thickness.Right (GetThickness minus_one edges_left1_start2) = Double.of_Z 4
  /\ CornerRadius.TopLeft (GetCornerRadius minus_one corners_physical_and_logical)
     = Double.of_Z 2
  /\ CornerRadius.BottomRight
       (GetCornerRadius minus_one corners_physical_and_logical)
     = Double.of_Z 8.
Proof.
  destruct (logical_slot_overrides_physical minus_one edges_left1_start2
              corners_physical_and_logical)
    as (L & R & TL & _ & _ & BR).
  repeat apply conj.
  - apply L; reflexivity.
  - apply R; reflexivity.
  - apply TL; reflexivity.
  - apply BR; reflexivity.
Defined.

(** C1: a defined physical slot should override its matching logical
    slot, as the comment in [GetThickness] has it ("most specific
    setting wins ... start/end, left/right"), and the code does not do
    it: with Left = 1 and Start = 2 both defined the resolved left is 2,
    not the Left slot's 1 (3 and 4 for Right and End alike), and with
    TopLeft = 1 and TopStart = 2 both defined the resolved top-left
    radius is 2. *)
Lemma physical_slot_does_not_override_logical :
  defined minus_one (edges_left1_start2 ShadowEdges.Left)
  /\ defined minus_one (edges_left1_start2 ShadowEdges.Start)
  /\ Thickness.Left (GetThickness minus_one edges_left1_start2)
     <> edges_left1_start2 ShadowEdges.Left
  /\ defined minus_one (edges_left1_start2 ShadowEdges.Right)
  /\ defined minus_one (edges_left1_start2 ShadowEdges.End_)
  /\ Thickness.Right (GetThickness minus_one edges_left1_start2)
     <> edges_left1_start2 ShadowEdges.Right
  /\ defined minus_one (corners_physical_and_logical ShadowCorners.TopLeft)
  /\ defined minus_one (corners_physical_and_logical ShadowCorners.TopStart)
  /\ CornerRadius.TopLeft
       (GetCornerRadius minus_one corners_physical_and_logical)
     <> corners_physical_and_logical ShadowCorners.TopLeft.
Proof.
  repeat apply conj; try reflexivity; vm_compute; discriminate.
Qed.

(** ** Resolved values are widths *)

Section SentinelIsNotAWidth.

Variable u : double.

(** The sentinel is not itself a number [>= 0]. *)
Hypothesis sentinel_not_width : Double.leb Double.zero u = false.

Lemma DefaultOrOverride_nonneg (d x : double) :
  Double.leb Double.zero d = true -> slot_ok u x = true ->
  Double.leb Double.zero (DefaultOrOverride u d x) = true.
Proof.
  intros Hd Hx. unfold DefaultOrOverride.
  destruct (x != u)%double eqn:E; [ | exact Hd ].
  now apply defined_slot_nonneg with u.
Qed.

Lemma DefaultOrOverride_slot_ok (d x : double) :
  slot_ok u d = true -> slot_ok u x = true ->
  slot_ok u (DefaultOrOverride u d x) = true.
Proof.
  intros Hd Hx. unfold DefaultOrOverride. now destruct (x != u)%double.
Qed.

Lemma GetThickness_nonneg (a : EdgeArray) :
  (forall e, slot_ok u (a e) = true) ->
  Thickness_all (Double.leb Double.zero) (GetThickness u a) = true.
Proof.
  intros Ha. unfold Thickness_all.
  rewrite GetThickness_Left, GetThickness_Right, GetThickness_Top,
    GetThickness_Bottom. cbv zeta.
  repeat (apply andb_true_intro; split);
    repeat match goal with
           | |- Double.leb _ (if ?b then _ else _) = true =>
               let E := fresh "E" in destruct b eqn:E
           end;
    try apply max_zero_nonneg;
    apply defined_slot_nonneg with u;
    auto using DefaultOrOverride_slot_ok.
Qed.

Lemma GetCornerRadius_nonneg (c : CornerArray) :
  (forall k, slot_ok u (c k) = true) ->
  CornerRadius_all (Double.leb Double.zero) (GetCornerRadius u c) = true.
Proof.
  intros Hc. unfold CornerRadius_all, GetCornerRadius. cbn.
  repeat (apply andb_true_intro; split);
    apply DefaultOrOverride_nonneg;
    auto using max_zero_nonneg, DefaultOrOverride_slot_ok.
Qed.

Lemma all_nonneg_all_defined_edges (t : Thickness.t) :
  Thickness_all (Double.leb Double.zero) t = true ->
  Thickness_all (fun x => (x != u)%double) t = true.
Proof.
  unfold Thickness_all. rewrite !andb_true_iff.
  intros [[[? ?] ?] ?].
  repeat apply conj; now apply (nonneg_is_defined u _ sentinel_not_width).
Qed.

Lemma all_nonneg_all_defined_corners (r : CornerRadius.t) :
  CornerRadius_all (Double.leb Double.zero) r = true ->
  CornerRadius_all (fun x => (x != u)%double) r = true.
Proof.
  unfold CornerRadius_all. rewrite !andb_true_iff.
  intros [[[? ?] ?] ?].
  repeat apply conj; now apply (nonneg_is_defined u _ sentinel_not_width).
Qed.

Lemma default_of_all (x : double) :
  slot_ok u x = true ->
  (undefined u x -> Double.max Double.zero x = Double.zero)
  /\ (defined u x -> (Double.max Double.zero x == x)%double = true).
Proof.
  intros Hx. split; intros H.
  - exact (undefined_max_zero u x sentinel_not_width H).
  - apply max_zero_eqb. exact (defined_slot_nonneg u x Hx H).
Qed.

End SentinelIsNotAWidth.

(** C2: for every 9-slot edge array and every 9-slot corner array whose
    slots are each the undefined sentinel or a number [>= 0], every
    field of the thickness returned by [GetThickness] and of the corner
    radius returned by [GetCornerRadius] is [>= 0] and is not the
    sentinel; a field none of whose slots is defined takes the default,
    which is 0 when the AllEdges (AllCorners) slot is undefined and
    equal to that slot's value otherwise. *)
Theorem resolved_values_are_widths
  (u : double) (edges : EdgeArray) (corners : CornerArray)
  (sentinel_not_width : Double.leb Double.zero u = false)
  (edges_ok : forall e, slot_ok u (edges e) = true)
  (corners_ok : forall k, slot_ok u (corners k) = true) :
  let t := GetThickness u edges in
  let r := GetCornerRadius u corners in
  let defaultWidth := Double.max Double.zero (edges ShadowEdges.AllEdges) in
  let defaultRadius :=
    Double.max Double.zero (corners ShadowCorners.AllCorners) in
  (Thickness_all (Double.leb Double.zero) t = true
   /\ CornerRadius_all (Double.leb Double.zero) r = true)
  /\ (Thickness_all (fun x => (x != u)%double) t = true
      /\ CornerRadius_all (fun x => (x != u)%double) r = true)
  /\ ((undefined u (edges ShadowEdges.Horizontal) ->
       undefined u (edges ShadowEdges.Start) ->
       undefined u (edges ShadowEdges.Left) ->
       Thickness.Left t = defaultWidth)
      /\ (undefined u (edges ShadowEdges.Horizontal) ->
          undefined u (edges ShadowEdges.End_) ->
          undefined u (edges ShadowEdges.Right) ->
          Thickness.Right t = defaultWidth)
      /\ (undefined u (edges ShadowEdges.Vertical) ->
          undefined u (edges ShadowEdges.Top) ->
          Thickness.Top t = defaultWidth)
      /\ (undefined u (edges ShadowEdges.Vertical) ->
          undefined u (edges ShadowEdges.Bottom) ->
          Thickness.Bottom t = defaultWidth))
  /\ ((undefined u (corners ShadowCorners.TopStart) ->
       undefined u (corners ShadowCorners.TopLeft) ->
       CornerRadius.TopLeft r = defaultRadius)
      /\ (undefined u (corners ShadowCorners.TopEnd) ->
          undefined u (corners ShadowCorners.TopRight) ->
          CornerRadius.TopRight r = defaultRadius)
      /\ (undefined u (corners ShadowCorners.BottomStart) ->
          undefined u (corners ShadowCorners.BottomLeft) ->
          CornerRadius.BottomLeft r = defaultRadius)
      /\ (undefined u (corners ShadowCorners.BottomEnd) ->
          undefined u (corners ShadowCorners.BottomRight) ->
          CornerRadius.BottomRight r = defaultRadius))
  /\ ((undefined u (edges ShadowEdges.AllEdges) -> defaultWidth = Double.zero)
      /\ (defined u (edges ShadowEdges.AllEdges) ->
          (defaultWidth == edges ShadowEdges.AllEdges)%double = true))
  /\ ((undefined u (corners ShadowCorners.AllCorners) ->
       defaultRadius = Double.zero)
      /\ (defined u (corners ShadowCorners.AllCorners) ->
          (defaultRadius == corners ShadowCorners.AllCorners)%double = true)).
Proof.
  intros t r defaultWidth defaultRadius.
  pose proof (GetThickness_nonneg u edges edges_ok) as Ht.
  pose proof (GetCornerRadius_nonneg u corners corners_ok)
    as Hr.
  split; [ split; assumption | ].
  split; [ split;
           [ now apply (all_nonneg_all_defined_edges u sentinel_not_width)
           | now apply (all_nonneg_all_defined_corners u sentinel_not_width) ] | ].
  unfold undefined.
  split; [ | split; [ | split ] ].
  - subst t defaultWidth.
    rewrite GetThickness_Left, GetThickness_Right, GetThickness_Top,
      GetThickness_Bottom. cbv zeta. unfold DefaultOrOverride.
    repeat apply conj; intros; 
      repeat match goal with H : _ = false |- _ => rewrite H; clear H end;
      reflexivity.
  - subst r defaultRadius. cbn. unfold DefaultOrOverride.
    repeat apply conj; intros A B; now rewrite A, B.
  - exact (default_of_all u sentinel_not_width _ (edges_ok _)).
  - exact (default_of_all u sentinel_not_width _ (corners_ok _)).
Qed.

Lemma resolved_values_are_widths_witness :
  Thickness_all (Double.leb Double.zero) (GetThickness minus_one edges_mixed)
  = true
  /\ Thickness.Bottom (GetThickness minus_one edges_mixed) = Double.of_Z 2
  /\ CornerRadius.TopLeft
       (GetCornerRadius minus_one corners_bottomRight5_all2) = Double.of_Z 2.
Proof.
  assert (E : forall e, slot_ok minus_one (edges_mixed e) = true)
    by (intros []; reflexivity).
  assert (C : forall k, slot_ok minus_one (corners_bottomRight5_all2 k) = true)
    by (intros []; reflexivity).
  destruct (resolved_values_are_widths minus_one edges_mixed
              corners_bottomRight5_all2 eq_refl E C)
    as ((Ht & _) & _ & (_ & _ & _ & Hb) & (Htl & _) & _).
  repeat apply conj.
  - exact Ht.
  - exact (Hb eq_refl eq_refl).
  - exact (Htl eq_refl eq_refl).
Defined.

(** ** The two resolution examples *)

(** C3: for every [v >= 0], if the edge array has its AllEdges slot
    equal to [v] and all eight other slots undefined, [GetThickness]
    returns the thickness (v, v, v, v): every field compares equal to
    [v], and is [v] itself unless [v] is the negative zero, which
    [std::max] replaces by the literal 0. *)
Theorem only_AllEdges_is_uniform
  (u v : double) (edges : EdgeArray)
  (v_nonneg : Double.leb Double.zero v = true)
  (all_is_v : edges ShadowEdges.AllEdges = v)
  (others_undefined :
     forall e, e <> ShadowEdges.AllEdges -> undefined u (edges e)) :
  Thickness.eqb (GetThickness u edges) (Thickness.FromUniformLength v) = true
  /\ (v <> S754_zero true ->
      GetThickness u edges = Thickness.mk v v v v).
Proof.
  assert (U : forall e, e <> ShadowEdges.AllEdges ->
                        (edges e != u)%double = false)
    by exact others_undefined.
  assert (E : GetThickness u edges
              = Thickness.FromUniformLength (Double.max Double.zero v)).
  { unfold GetThickness, DefaultOrOverride. cbv zeta.
    rewrite (U ShadowEdges.Start), (U ShadowEdges.End_) by discriminate.
    rewrite (U ShadowEdges.Left), (U ShadowEdges.Right),
      (U ShadowEdges.Horizontal), (U ShadowEdges.Vertical),
      (U ShadowEdges.Top), (U ShadowEdges.Bottom) by discriminate.
    now rewrite all_is_v. }
  rewrite E. split.
  - unfold Thickness.eqb, Thickness.FromUniformLength. cbn.
    now rewrite (max_zero_eqb v v_nonneg).
  - intros Hv. unfold Thickness.FromUniformLength.
    now rewrite (max_zero_id v v_nonneg Hv).
Qed.

Lemma only_AllEdges_is_uniform_witness :
  GetThickness minus_one (edges_only_all (Double.of_Z 3))
  = Thickness.mk (Double.of_Z 3) (Double.of_Z 3) (Double.of_Z 3)
      (Double.of_Z 3).
Proof.
  refine (proj2 (only_AllEdges_is_uniform minus_one (Double.of_Z 3)
                   (edges_only_all (Double.of_Z 3)) eq_refl eq_refl _) _).
  - intros [] H; try reflexivity. now elim H.
  - discriminate.
Defined.

(** C4: if the corner array has the BottomRight slot equal to 5, the
    AllCorners slot equal to 2, and all other slots undefined,
    [GetCornerRadius] returns topLeft = 2, topRight = 2, bottomLeft = 2,
    bottomRight = 5. *)
Theorem bottomRight5_all2_resolution
  (u : double) (corners : CornerArray)
  (sentinel_not_width : Double.leb Double.zero u = false)
  (bottomRight_is_5 : corners ShadowCorners.BottomRight = Double.of_Z 5)
  (all_is_2 : corners ShadowCorners.AllCorners = Double.of_Z 2)
  (others_undefined :
     forall k, k <> ShadowCorners.BottomRight ->
               k <> ShadowCorners.AllCorners -> undefined u (corners k)) :
  GetCornerRadius u corners
  = {| CornerRadius.TopLeft := Double.of_Z 2;
       CornerRadius.TopRight := Double.of_Z 2;
       CornerRadius.BottomLeft := Double.of_Z 2;
       CornerRadius.BottomRight := Double.of_Z 5 |}.
Proof.
  assert (U : forall k, k <> ShadowCorners.BottomRight ->
                        k <> ShadowCorners.AllCorners ->
                        (corners k != u)%double = false)
    by exact others_undefined.
  assert (D5 : (Double.of_Z 5 != u)%double = true)
    by (now apply (nonneg_is_defined u _ sentinel_not_width)).
  unfold GetCornerRadius, DefaultOrOverride. cbv zeta.
  rewrite (U ShadowCorners.TopStart), (U ShadowCorners.TopEnd),
    (U ShadowCorners.BottomStart), (U ShadowCorners.BottomEnd) by discriminate.
  rewrite (U ShadowCorners.TopLeft), (U ShadowCorners.TopRight),
    (U ShadowCorners.BottomLeft) by discriminate.
  rewrite bottomRight_is_5, all_is_2, D5. reflexivity.
Qed.

Lemma bottomRight5_all2_resolution_witness :
  GetCornerRadius minus_one corners_bottomRight5_all2
  = {| CornerRadius.TopLeft := Double.of_Z 2;
       CornerRadius.TopRight := Double.of_Z 2;
       CornerRadius.BottomLeft := Double.of_Z 2;
       CornerRadius.BottomRight := Double.of_Z 5 |}.
Proof.
  apply (bottomRight5_all2_resolution minus_one corners_bottomRight5_all2
           eq_refl eq_refl eq_refl).
  intros [] H1 H2; try reflexivity; [ now elim H1 | now elim H2 ].
Defined.

(** ** The dispatchers *)

(** A name outside a list of literals differs from each of them. *)
Ltac name_differs H :=
  repeat match goal with
         | |- context [String.eqb ?n ?s] =>
             let E := fresh "E" in
             assert (E : String.eqb n s = false)
               by (apply String.eqb_neq; intros ->; apply H; simpl; tauto);
             rewrite E; clear E
         end.

Lemma border_width_name_in_map (name : string) :
  In name border_width_names ->
  (name =? "borderColor") = false
  /\ exists edge, find edgeTypeMap name = Some edge.
Proof.
  unfold border_width_names. simpl.
  intros [<- | [<- | [<- | [<- | [<- | [<- | [<- | []]]]]]]];
    (split; [ reflexivity | eexists; reflexivity ]).
Qed.

Lemma border_width_edge_in_map (name : string) (edge : ShadowEdges.t) :
  In (name, edge) border_width_edges ->
  (name =? "borderColor") = false /\ find edgeTypeMap name = Some edge.
Proof.
  unfold border_width_edges. simpl.
  intros [E | [E | [E | [E | [E | [E | [E | []]]]]]]];
    injection E as <- <-; split; reflexivity.
Qed.

(** C5: [TryUpdateFontProperties] with property name "fontWeight": the
    string "600" sets the element's FontWeight to weight 600; any string
    outside the closed set of tokens sets it to Normal; a null value
    clears FontWeight to the toolkit default; in all cases the call
    returns true, and nothing else of the node or the element changes. *)
Theorem fontWeight_update
  (std : string -> option double) (w : World) :
  TryUpdateFontProperties std "fontWeight" (DString "600") w
  = Returns (true,
             mkWorld (node w)
               (with_local (element w) FontWeightProperty
                  (Some (VFontWeight (FontWeight.mk 600)))))
  /\ (forall s, ~ In s fontWeight_tokens ->
      TryUpdateFontProperties std "fontWeight" (DString s) w
      = Returns (true,
                 mkWorld (node w)
                   (with_local (element w) FontWeightProperty
                      (Some (VFontWeight FontWeights.Normal)))))
  /\ TryUpdateFontProperties std "fontWeight" DNull w
     = Returns (true,
                mkWorld (node w)
                  (with_local (element w) FontWeightProperty None)).
Proof.
  repeat apply conj; try reflexivity.
  intros s H. unfold TryUpdateFontProperties. cbn.
  unfold fontWeight_of. unfold fontWeight_tokens in H.
  name_differs H. reflexivity.
Qed.

Lemma fontWeight_update_witness :
  TryUpdateFontProperties no_parse "fontWeight" (DString "purple") fresh_world
  = Returns (true,
             mkWorld fresh_node
               (with_local fresh_element FontWeightProperty
                  (Some (VFontWeight FontWeights.Normal)))).
Proof.
  apply (proj1 (proj2 (fontWeight_update no_parse fresh_world)) "purple").
  simpl. intros H.
  repeat (destruct H as [H | H]; [ discriminate H | ]). exact H.
Defined.

(** C6: [TryUpdateBorderProperties] with property name "borderColor" and
    a null value: if the element's current BorderThickness is not the
    uniform-0 thickness, the default border brush is applied as
    BorderBrush; if it is uniformly 0, the BorderBrush property is
    cleared; in both cases the border resource brushes are refreshed
    with no brush and the call returns true. *)
Theorem borderColor_null
  (u : double) (std : string -> option double) (w : World) :
  (Thickness.neqb (effective_BorderThickness (element w))
     (Thickness.FromUniformLength Double.zero) = true ->
   TryUpdateBorderProperties u std "borderColor" DNull w
   = Returns (true,
              mkWorld (node w)
                (with_refresh
                   (with_local (element w) BorderBrushProperty
                      (Some (VBrush GetDefaultBorderBrush)))
                   (RefreshBorder None))))
  /\ (Thickness.neqb (effective_BorderThickness (element w))
        (Thickness.FromUniformLength Double.zero) = false ->
      TryUpdateBorderProperties u std "borderColor" DNull w
      = Returns (true,
                 mkWorld (node w)
                   (with_refresh
                      (with_local (element w) BorderBrushProperty None)
                      (RefreshBorder None)))).
Proof.
  split; intros H; unfold TryUpdateBorderProperties; cbn;
    unfold bind, get_BorderThickness; cbn; rewrite H; reflexivity.
Qed.

Lemma borderColor_null_witness :
  effective_BorderBrush
    (with_refresh
       (with_local (element bordered_world) BorderBrushProperty
          (Some (VBrush GetDefaultBorderBrush)))
       (RefreshBorder None)) = Some GetDefaultBorderBrush
  /\ TryUpdateBorderProperties minus_one no_parse "borderColor" DNull
       bordered_world
     = Returns (true,
                mkWorld (node bordered_world)
                  (with_refresh
                     (with_local (element bordered_world) BorderBrushProperty
                        (Some (VBrush GetDefaultBorderBrush)))
                     (RefreshBorder None)))
  /\ TryUpdateBorderProperties minus_one no_parse "borderColor" DNull
       fresh_world
     = Returns (true,
                mkWorld (node fresh_world)
                  (with_refresh
                     (with_local (element fresh_world) BorderBrushProperty
                        None)
                     (RefreshBorder None))).
Proof.
  split; [ reflexivity | split ].
  - apply (proj1 (borderColor_null minus_one no_parse bordered_world)).
    reflexivity.
  - apply (proj2 (borderColor_null minus_one no_parse fresh_world)).
    reflexivity.
Defined.

Lemma set_edge_same (a : EdgeArray) (edge : ShadowEdges.t) (v : double) :
  set_edge a edge v edge = v.
Proof. unfold set_edge. now destruct edge. Qed.

Lemma set_edge_other (a : EdgeArray) (edge e : ShadowEdges.t) (v : double) :
  e <> edge -> set_edge a edge v e = a e.
Proof.
  unfold set_edge. intros H.
  destruct edge, e; try reflexivity; now elim H.
Qed.

(** C7: when [TryUpdateBorderProperties] handles a recognized
    border-width name with a numeric value, it updates that name's edge
    slot (borderWidth the AllEdges slot, borderLeftWidth the Left slot,
    and so on) and applies the resolved thickness, and applies the
    default border brush exactly when the new width is nonzero and the
    element has no BorderBrush; in particular a width of 0 on an element
    with no BorderBrush leaves it without one. *)
Theorem border_width_default_brush
  (u : double) (std : string -> option double)
  (name : string) (edge : ShadowEdges.t) (v : dynamic) (d : double)
  (w : World)
  (recognized_name : In (name, edge) border_width_edges)
  (numeric : isNumber v = true)
  (value : asDouble std v = Returns d) :
  let border := set_edge (m_border (node w)) edge d in
  let applied :=
    with_local (element w) BorderThicknessProperty
      (Some (VThickness (GetThickness u border))) in
  border edge = d
  /\ (forall e, e <> edge -> border e = m_border (node w) e)
  /\ TryUpdateBorderProperties u std name v w
     = Returns (true,
                mkWorld (with_m_border (node w) border)
                  (if ((d != Double.zero)%double
                       && is_null (effective_BorderBrush (element w)))%bool
                   then with_local applied BorderBrushProperty
                          (Some (VBrush GetDefaultBorderBrush))
                   else applied))
  /\ ((d == Double.zero)%double = true ->
      effective_BorderBrush (element w) = None ->
      TryUpdateBorderProperties u std name v w
      = Returns (true, mkWorld (with_m_border (node w) border) applied)
      /\ effective_BorderBrush applied = None).
Proof.
  destruct (border_width_edge_in_map name edge recognized_name)
    as (NotColor & InMap).
  cbv zeta.
  split; [ apply set_edge_same | ].
  split; [ intros e; apply set_edge_other | ].
  assert (Run : TryUpdateBorderProperties u std name v w
          = Returns (true,
              mkWorld
                (with_m_border (node w) (set_edge (m_border (node w)) edge d))
                (if ((d != Double.zero)%double
                     && is_null (effective_BorderBrush (element w)))%bool
                 then with_local
                        (with_local (element w) BorderThicknessProperty
                           (Some (VThickness
                                    (GetThickness u
                                       (set_edge (m_border (node w)) edge d)))))
                        BorderBrushProperty
                        (Some (VBrush GetDefaultBorderBrush))
                 else with_local (element w) BorderThicknessProperty
                        (Some (VThickness
                                 (GetThickness u
                                    (set_edge (m_border (node w)) edge d))))))).
  { unfold TryUpdateBorderProperties. rewrite NotColor, InMap, numeric.
    unfold bind, lift. rewrite value. cbn.
    change (effective_BorderBrush
              (with_local (element w) BorderThicknessProperty
                 (Some (VThickness
                          (GetThickness u
                             (set_edge (m_border (node w)) edge d))))))
      with (effective_BorderBrush (element w)).
    now destruct ((d != Double.zero)%double
                  && is_null (effective_BorderBrush (element w)))%bool. }
  split; [ exact Run | ].
  intros Zero NoBrush. split; [ | exact NoBrush ].
  rewrite Run. unfold Double.neqb. fold (Double.eqb d Double.zero).
  now rewrite Zero.
Qed.

Lemma border_width_default_brush_witness :
  TryUpdateBorderProperties minus_one no_parse "borderLeftWidth" (DInt64 0)
    fresh_world
  = Returns (true,
             mkWorld
               (with_m_border fresh_node
                  (set_edge (m_border fresh_node) ShadowEdges.Left
                     Double.zero))
               (with_local fresh_element BorderThicknessProperty
                  (Some (VThickness
                           (GetThickness minus_one
                              (set_edge (m_border fresh_node) ShadowEdges.Left
                                 Double.zero)))))).
Proof.
  destruct (border_width_default_brush minus_one no_parse "borderLeftWidth"
              ShadowEdges.Left (DInt64 0) Double.zero fresh_world)
    as (_ & _ & _ & Zero).
  - simpl. tauto.
  - reflexivity.
  - reflexivity.
  - apply Zero; reflexivity.
Defined.

(** C10: for every recognized border-width property name (borderWidth
    and border{Left,Top,Right,Bottom,Start,End}Width),
    [TryUpdateBorderProperties] given a null value sets that edge's slot
    in the node's border array (AllEdges for borderWidth, the named edge
    for the others) to 0 and keeps the other slots, re-resolves the full
    array, applies the resulting BorderThickness to the element, and
    returns true. *)
Theorem border_width_null_resets
  (u : double) (std : string -> option double)
  (name : string) (edge : ShadowEdges.t) (w : World)
  (recognized_name : In (name, edge) border_width_edges) :
  let border := set_edge (m_border (node w)) edge Double.zero in
  border edge = Double.zero
  /\ (forall e, e <> edge -> border e = m_border (node w) e)
  /\ TryUpdateBorderProperties u std name DNull w
     = Returns (true,
                mkWorld (with_m_border (node w) border)
                  (with_local (element w) BorderThicknessProperty
                     (Some (VThickness (GetThickness u border))))).
Proof.
  destruct (border_width_edge_in_map name edge recognized_name)
    as (NotColor & InMap).
  cbv zeta.
  split; [ apply set_edge_same | ].
  split; [ intros e; apply set_edge_other | ].
  unfold TryUpdateBorderProperties. rewrite NotColor, InMap. reflexivity.
Qed.

Lemma border_width_null_resets_witness :
  TryUpdateBorderProperties minus_one no_parse "borderTopWidth" DNull
    bordered_world
  = Returns (true,
             mkWorld
               (with_m_border (node bordered_world)
                  (set_edge (m_border (node bordered_world))
                     ShadowEdges.Top Double.zero))
               (with_local (element bordered_world) BorderThicknessProperty
                  (Some (VThickness
                           (Thickness.mk (Double.of_Z 1) Double.zero
                              (Double.of_Z 1) (Double.of_Z 1)))))).
Proof.
  destruct (border_width_null_resets minus_one no_parse "borderTopWidth"
              ShadowEdges.Top bordered_world)
    as (_ & _ & Run).
  - simpl. tauto.
  - exact Run.
Defined.

(** C8: for every dispatcher group and every property value, calling
    the group's try-apply function with a property name outside that
    group's recognized set returns false and leaves the node state and
    the element completely unchanged. *)
Theorem unrecognized_name_not_handled
  (u : double) (std : string -> option double)
  (stb : string -> option bool) (decorations_supported : bool)
  (g : Group) (name : string) (v : dynamic) (w : World)
  (unrecognized : ~ In name (recognized g)) :
  try_apply u std stb decorations_supported g name v w = Returns (false, w).
Proof.
  destruct g; cbn [recognized] in unrecognized; cbn [try_apply].
  - unfold TryUpdateBackgroundBrush. name_differs unrecognized. reflexivity.
  - unfold TryUpdateForeground. name_differs unrecognized. reflexivity.
  - unfold TryUpdateBorderProperties, edgeTypeMap. cbn [find].
    name_differs unrecognized. reflexivity.
  - unfold TryUpdatePadding. name_differs unrecognized. reflexivity.
  - unfold TryUpdateCornerRadiusOnNode. name_differs unrecognized.
    reflexivity.
  - unfold TryUpdateFontProperties. name_differs unrecognized. reflexivity.
  - unfold TryUpdateTextAlignment. name_differs unrecognized. reflexivity.
  - unfold TryUpdateTextTrimming. name_differs unrecognized. reflexivity.
  - unfold TryUpdateTextDecorationLine. name_differs unrecognized.
    reflexivity.
  - unfold TryUpdateFlowDirection. name_differs unrecognized. reflexivity.
  - unfold TryUpdateCharacterSpacing. name_differs unrecognized. reflexivity.
  - unfold TryUpdateOrientation. name_differs unrecognized. reflexivity.
  - unfold TryUpdateMouseEvents. name_differs unrecognized. reflexivity.
Qed.

Lemma unrecognized_name_not_handled_witness :
  try_apply minus_one no_parse no_parse true GPadding "paddingInline"
    (DInt64 4) bordered_world
  = Returns (false, bordered_world)
  /\ try_apply minus_one no_parse no_parse true GMouseEvents "onMouseOver"
       (DBool true) bordered_world
     = Returns (false, bordered_world).
Proof.
  split;
    apply unrecognized_name_not_handled; simpl; intros H;
    repeat (destruct H as [H | H]; [ discriminate H | ]); exact H.
Defined.

(** C9, as amended: [TryUpdateOrientation] with property name
    "orientation": a string value other than "horizontal" or "vertical",
    or a value of any type other than string and null, leaves the
    element's Orientation property (and everything else) untouched
    while the call still returns true. *)
Theorem orientation_untouched
  (v : dynamic) (w : World)
  (not_null : isNull v = false)
  (not_a_token : orientation_token v = false) :
  TryUpdateOrientation "orientation" v w = Returns (true, w).
Proof.
  unfold TryUpdateOrientation. cbn. rewrite not_null.
  destruct v as [ | | b | d | n | | s]; try reflexivity.
  cbn in not_a_token. apply orb_false_iff in not_a_token.
  destruct not_a_token as [H V]. cbn. unfold bind, lift. cbn.
  now rewrite H, V.
Qed.

Lemma orientation_untouched_witness :
  TryUpdateOrientation "orientation" (DString "diagonal") horizontal_world
  = Returns (true, horizontal_world)
  /\ TryUpdateOrientation "orientation" (DInt64 1) horizontal_world
     = Returns (true, horizontal_world).
Proof.
  split; apply orientation_untouched; reflexivity.
Defined.

(** C9, as stated, fails: null is a value of a non-string type, and on
    an element whose Orientation is Horizontal it clears the property. *)
Lemma orientation_null_clears :
  isString DNull = false
  /\ local (element horizontal_world) OrientationProperty
     = Some (VOrientation Orientation.Horizontal)
  /\ exists w',
       TryUpdateOrientation "orientation" DNull horizontal_world
       = Returns (true, w')
       /\ local (element w') OrientationProperty = None.
Proof.
  split; [ reflexivity | split; [ reflexivity | ] ].
  eexists. split; reflexivity.
Qed.

(** * Further properties of the resolver *)

(** X1: A missing logical slot leaves the physical one in charge, and the
    Top and Bottom slots win whenever they are defined: with Start
    undefined and Left defined the resolved left is the Left slot's
    value (End and Right alike, and each corner with its logical slot
    undefined and its physical slot defined); a defined Top (Bottom)
    slot is the resolved top (bottom) whatever the other slots hold. *)
Theorem physical_slot_is_the_fallback
  (u : double) (edges : EdgeArray) (corners : CornerArray) :
  (undefined u (edges ShadowEdges.Start) -> defined u (edges ShadowEdges.Left) ->
   Thickness.Left (GetThickness u edges) = edges ShadowEdges.Left)
  /\ (undefined u (edges ShadowEdges.End_) ->
      defined u (edges ShadowEdges.Right) ->
      Thickness.Right (GetThickness u edges) = edges ShadowEdges.Right)
  /\ (defined u (edges ShadowEdges.Top) ->
      Thickness.Top (GetThickness u edges) = edges ShadowEdges.Top)
  /\ (defined u (edges ShadowEdges.Bottom) ->
      Thickness.Bottom (GetThickness u edges) = edges ShadowEdges.Bottom)
  /\ (undefined u (corners ShadowCorners.TopStart) ->
      defined u (corners ShadowCorners.TopLeft) ->
      CornerRadius.TopLeft (GetCornerRadius u corners)
      = corners ShadowCorners.TopLeft)
  /\ (undefined u (corners ShadowCorners.TopEnd) ->
      defined u (corners ShadowCorners.TopRight) ->
      CornerRadius.TopRight (GetCornerRadius u corners)
      = corners ShadowCorners.TopRight)
  /\ (undefined u (corners ShadowCorners.BottomStart) ->
      defined u (corners ShadowCorners.BottomLeft) ->
      CornerRadius.BottomLeft (GetCornerRadius u corners)
      = corners ShadowCorners.BottomLeft)
  /\ (undefined u (corners ShadowCorners.BottomEnd) ->
      defined u (corners ShadowCorners.BottomRight) ->
      CornerRadius.BottomRight (GetCornerRadius u corners)
      = corners ShadowCorners.BottomRight).
Proof.
  unfold defined, undefined.
  rewrite GetThickness_Left, GetThickness_Right, GetThickness_Top,
    GetThickness_Bottom. cbn. unfold DefaultOrOverride.
  repeat apply conj; intros;
    repeat match goal with
           | H : _ = true |- _ => rewrite H; clear H
           | H : _ = false |- _ => rewrite H; clear H
           end; reflexivity.
Qed.

Lemma physical_slot_is_the_fallback_witness :
  Thickness.Top (GetThickness minus_one edges_mixed) = Double.of_Z 7
  /\ CornerRadius.BottomRight
       (GetCornerRadius minus_one corners_bottomRight5_all2) = Double.of_Z 5.
Proof.
  destruct (physical_slot_is_the_fallback minus_one edges_mixed
              corners_bottomRight5_all2)
    as (_ & _ & T & _ & _ & _ & _ & BR).
  split; [ apply T | apply BR ]; reflexivity.
Defined.

(** X2: The Horizontal and Vertical shorthands: with Horizontal defined and
    Left, Right, Start and End undefined, the resolved left and right
    are both the Horizontal value; with Vertical defined and Top and
    Bottom undefined, the resolved top and bottom are both the Vertical
    value. *)
Theorem horizontal_vertical_shorthand (u : double) (edges : EdgeArray) :
  (defined u (edges ShadowEdges.Horizontal) ->
   undefined u (edges ShadowEdges.Left) ->
   undefined u (edges ShadowEdges.Right) ->
   undefined u (edges ShadowEdges.Start) ->
   undefined u (edges ShadowEdges.End_) ->
   Thickness.Left (GetThickness u edges) = edges ShadowEdges.Horizontal
   /\ Thickness.Right (GetThickness u edges) = edges ShadowEdges.Horizontal)
  /\ (defined u (edges ShadowEdges.Vertical) ->
      undefined u (edges ShadowEdges.Top) ->
      undefined u (edges ShadowEdges.Bottom) ->
      Thickness.Top (GetThickness u edges) = edges ShadowEdges.Vertical
      /\ Thickness.Bottom (GetThickness u edges) = edges ShadowEdges.Vertical).
Proof.
  unfold defined, undefined.
  rewrite GetThickness_Left, GetThickness_Right, GetThickness_Top,
    GetThickness_Bottom. cbn. unfold DefaultOrOverride.
  split; intros;
    repeat match goal with
           | H : _ = true |- _ => rewrite H; clear H
           | H : _ = false |- _ => rewrite H; clear H
           end; split; reflexivity.
Qed.

Lemma horizontal_vertical_shorthand_witness :
  Thickness.Left (GetThickness minus_one edges_mixed) = Double.of_Z 3
  /\ Thickness.Right (GetThickness minus_one edges_mixed) = Double.of_Z 3.
Proof.
  apply (proj1 (horizontal_vertical_shorthand minus_one edges_mixed));
    reflexivity.
Defined.

(** X3: Each resolved side reads only its own slots: the left depends on
    Left, Start, Horizontal and AllEdges alone, the right on Right, End,
    Horizontal and AllEdges, the top on Top, Vertical and AllEdges, the
    bottom on Bottom, Vertical and AllEdges.  Two arrays that agree on
    those slots resolve that side alike. *)
Theorem sides_read_their_own_slots (u : double) (a b : EdgeArray)
  (same_all : a ShadowEdges.AllEdges = b ShadowEdges.AllEdges) :
  (a ShadowEdges.Left = b ShadowEdges.Left ->
   a ShadowEdges.Start = b ShadowEdges.Start ->
   a ShadowEdges.Horizontal = b ShadowEdges.Horizontal ->
   Thickness.Left (GetThickness u a) = Thickness.Left (GetThickness u b))
  /\ (a ShadowEdges.Right = b ShadowEdges.Right ->
      a ShadowEdges.End_ = b ShadowEdges.End_ ->
      a ShadowEdges.Horizontal = b ShadowEdges.Horizontal ->
      Thickness.Right (GetThickness u a) = Thickness.Right (GetThickness u b))
  /\ (a ShadowEdges.Top = b ShadowEdges.Top ->
      a ShadowEdges.Vertical = b ShadowEdges.Vertical ->
      Thickness.Top (GetThickness u a) = Thickness.Top (GetThickness u b))
  /\ (a ShadowEdges.Bottom = b ShadowEdges.Bottom ->
      a ShadowEdges.Vertical = b ShadowEdges.Vertical ->
      Thickness.Bottom (GetThickness u a)
      = Thickness.Bottom (GetThickness u b)).
Proof.
  rewrite !GetThickness_Left, !GetThickness_Right, !GetThickness_Top,
    !GetThickness_Bottom. cbv zeta. rewrite same_all.
  repeat apply conj; intros;
    repeat match goal with H : a _ = b _ |- _ => rewrite H; clear H end;
    reflexivity.
Qed.

Lemma sides_read_their_own_slots_witness :
  Thickness.Left (GetThickness minus_one
                    (set_edge edges_mixed ShadowEdges.Top (Double.of_Z 9)))
  = Thickness.Left (GetThickness minus_one edges_mixed).
Proof.
  apply (proj1 (sides_read_their_own_slots minus_one
                  (set_edge edges_mixed ShadowEdges.Top (Double.of_Z 9))
                  edges_mixed eq_refl)); reflexivity.
Defined.

(** X4: When only the AllEdges (AllCorners) slot can be defined, every side
    (corner) is [max(0, that slot)]: a value that is not above 0, the
    sentinel, a negative number or NaN alike, resolves to 0 everywhere. *)
Theorem broad_slot_is_clamped
  (u : double) (edges : EdgeArray) (corners : CornerArray)
  (edges_undefined :
     forall e, e <> ShadowEdges.AllEdges -> undefined u (edges e))
  (corners_undefined :
     forall k, k <> ShadowCorners.AllCorners -> undefined u (corners k)) :
  let w := Double.max Double.zero (edges ShadowEdges.AllEdges) in
  let r := Double.max Double.zero (corners ShadowCorners.AllCorners) in
  GetThickness u edges = Thickness.mk w w w w
  /\ GetCornerRadius u corners
     = {| CornerRadius.TopLeft := r; CornerRadius.TopRight := r;
          CornerRadius.BottomLeft := r; CornerRadius.BottomRight := r |}
  /\ (Double.ltb Double.zero (edges ShadowEdges.AllEdges) = false ->
      w = Double.zero)
  /\ (Double.ltb Double.zero (corners ShadowCorners.AllCorners) = false ->
      r = Double.zero).
Proof.
  assert (E : forall e, e <> ShadowEdges.AllEdges ->
                        (edges e != u)%double = false)
    by exact edges_undefined.
  assert (C : forall k, k <> ShadowCorners.AllCorners ->
                        (corners k != u)%double = false)
    by exact corners_undefined.
  cbv zeta. repeat apply conj.
  - unfold GetThickness, DefaultOrOverride. cbv zeta.
    rewrite (E ShadowEdges.Start), (E ShadowEdges.End_) by discriminate.
    now rewrite (E ShadowEdges.Left), (E ShadowEdges.Right),
      (E ShadowEdges.Horizontal), (E ShadowEdges.Vertical),
      (E ShadowEdges.Top), (E ShadowEdges.Bottom) by discriminate.
  - unfold GetCornerRadius, DefaultOrOverride. cbv zeta.
    rewrite (C ShadowCorners.TopStart), (C ShadowCorners.TopEnd),
      (C ShadowCorners.BottomStart), (C ShadowCorners.BottomEnd)
      by discriminate.
    now rewrite (C ShadowCorners.TopLeft), (C ShadowCorners.TopRight),
      (C ShadowCorners.BottomLeft), (C ShadowCorners.BottomRight)
      by discriminate.
  - unfold Double.max. now intros ->.
  - unfold Double.max. now intros ->.
Qed.

Lemma broad_slot_is_clamped_witness :
  GetThickness minus_one (edges_only_all (Double.of_Z (-4)))
  = Thickness.FromUniformLength Double.zero.
Proof.
  destruct (broad_slot_is_clamped minus_one
              (edges_only_all (Double.of_Z (-4)))
              (fun _ => minus_one)) as (E & _).
  - intros [] H; try reflexivity. now elim H.
  - intros [] H; reflexivity.
  - exact E.
Defined.

(** X5: The resolver invents no value: every resolved side is 0 or the
    value of one of the array's slots, and so is every resolved corner. *)
Theorem resolved_values_come_from_slots
  (u : double) (edges : EdgeArray) (corners : CornerArray) :
  let t := GetThickness u edges in
  let r := GetCornerRadius u corners in
  (zero_or_slot edges (Thickness.Left t)
   /\ zero_or_slot edges (Thickness.Top t)
   /\ zero_or_slot edges (Thickness.Right t)
   /\ zero_or_slot edges (Thickness.Bottom t))
  /\ (zero_or_slot corners (CornerRadius.TopLeft r)
      /\ zero_or_slot corners (CornerRadius.TopRight r)
      /\ zero_or_slot corners (CornerRadius.BottomLeft r)
      /\ zero_or_slot corners (CornerRadius.BottomRight r)).
Proof.
  cbv zeta.
  rewrite GetThickness_Left, GetThickness_Right, GetThickness_Top,
    GetThickness_Bottom. cbn.
  unfold DefaultOrOverride, Double.max, zero_or_slot.
  repeat apply conj;
    repeat match goal with
           | |- context [if ?b then _ else _] => destruct b
           end;
    solve [ left; reflexivity | right; eexists; reflexivity ].
Qed.

(** * Further properties of the dispatchers *)

Lemma number_value_some (std : string -> option double) (v : dynamic)
  (d : double) :
  number_value v = Some d -> isNumber v = true /\ asDouble std v = Returns d.
Proof.
  destruct v as [ | | b | x | n | | s]; try discriminate; cbn.
  - intros [= <-]. split; reflexivity.
  - destruct (Double.exact_int n); [ | discriminate ].
    intros [= <-]. split; reflexivity.
Qed.

Lemma inexact_integer_throws (std : string -> option double) (v : dynamic) :
  inexact_integer v = true -> isNumber v = true /\ asDouble std v = Throws.
Proof.
  destruct v as [ | | b | x | n | | s]; try discriminate; cbn.
  destruct (Double.exact_int n); [ discriminate | ].
  intros _. split; reflexivity.
Qed.

Lemma GetThickness_ext (u : double) (a b : EdgeArray) :
  (forall e, a e = b e) -> GetThickness u a = GetThickness u b.
Proof.
  intros H. unfold GetThickness, DefaultOrOverride. now rewrite !H.
Qed.

Lemma set_edge_swap (a : EdgeArray) (e1 e2 : ShadowEdges.t) (v1 v2 : double) :
  e1 <> e2 ->
  forall e, set_edge (set_edge a e1 v1) e2 v2 e
            = set_edge (set_edge a e2 v2) e1 v1 e.
Proof.
  intros H e. unfold set_edge.
  destruct e1, e2, e; try reflexivity; now elim H.
Qed.

Lemma set_edge_twice (a : EdgeArray) (e1 : ShadowEdges.t) (v1 v2 : double) :
  forall e, set_edge (set_edge a e1 v1) e1 v2 e = set_edge a e1 v2 e.
Proof. intros e. unfold set_edge. now destruct (ShadowEdges.eqb e1 e). Qed.

(** X6: A padding update with a number: for each of the nine padding
    names and every number [d] that [asDouble] converts (a double, or an
    integer that [double] holds exactly), [TryUpdatePadding] writes [d]
    to that name's slot of the node's padding array, applies the
    resolution of the updated array as the element's Padding, changes
    nothing else and returns true; on an integer that [double] cannot
    hold exactly [asDouble] throws and the call leaves through the
    exception. *)
Theorem padding_number_applies
  (u : double) (std : string -> option double)
  (name : string) (edge : ShadowEdges.t) (v : dynamic) (w : World)
  (arm : In (name, edge) padding_edges) :
  (forall d,
     number_value v = Some d ->
     let padding := set_edge (m_padding (node w)) edge d in
     TryUpdatePadding u std name v w
     = Returns (true,
                mkWorld (with_m_padding (node w) padding)
                  (with_local (element w) PaddingProperty
                     (Some (VThickness (GetThickness u padding))))))
  /\ (inexact_integer v = true ->
      TryUpdatePadding u std name v w = Throws).
Proof.
  unfold padding_edges in arm. simpl in arm.
  repeat (destruct arm as [[= <- <-] | arm];
          [ split;
            [ intros d numeric;
              destruct (number_value_some std v d numeric) as [N A]
            | intros X;
              destruct (inexact_integer_throws std v X) as [N A] ];
            unfold TryUpdatePadding; cbn; unfold padding_arm, bind, lift;
            rewrite N, A; reflexivity | ]).
  destruct arm.
Qed.

Lemma padding_number_applies_witness :
  TryUpdatePadding minus_one no_parse "paddingHorizontal" (DInt64 3)
    fresh_world
  = Returns (true,
             mkWorld
               (with_m_padding fresh_node
                  (set_edge (m_padding fresh_node) ShadowEdges.Horizontal
                     (Double.of_Z 3)))
               (with_local fresh_element PaddingProperty
                  (Some (VThickness
                           (Thickness.mk (Double.of_Z 3) Double.zero
                              (Double.of_Z 3) Double.zero)))))
  /\ TryUpdatePadding minus_one no_parse "paddingHorizontal"
       (DInt64 9007199254740993) fresh_world
     = Throws.
Proof.
  destruct (padding_number_applies minus_one no_parse "paddingHorizontal"
              ShadowEdges.Horizontal (DInt64 3) fresh_world)
    as (Number & _); [ simpl; tauto | ].
  destruct (padding_number_applies minus_one no_parse "paddingHorizontal"
              ShadowEdges.Horizontal (DInt64 9007199254740993) fresh_world)
    as (_ & Inexact); [ simpl; tauto | ].
  split.
  - apply (Number (Double.of_Z 3)). reflexivity.
  - apply Inexact. reflexivity.
Defined.

(** X7: A padding update with anything but a number is ignored, null
    included: for each of the nine padding names and every value that is
    not a number, [TryUpdatePadding] returns true and leaves the node
    and the element as they were.  (A border width, by contrast, is
    reset to 0 by null.) *)
Theorem padding_ignores_non_numbers
  (u : double) (std : string -> option double)
  (name : string) (edge : ShadowEdges.t) (v : dynamic) (w : World)
  (arm : In (name, edge) padding_edges)
  (not_numeric : isNumber v = false) :
  TryUpdatePadding u std name v w = Returns (true, w).
Proof.
  unfold padding_edges in arm. simpl in arm.
  repeat (destruct arm as [[= <- <-] | arm];
          [ unfold TryUpdatePadding; cbn; unfold padding_arm;
            rewrite not_numeric; reflexivity | ]).
  destruct arm.
Qed.

Lemma padding_ignores_non_numbers_witness :
  TryUpdatePadding minus_one no_parse "padding" DNull bordered_world
  = Returns (true, bordered_world)
  /\ TryUpdatePadding minus_one no_parse "paddingTop" (DString "4")
       bordered_world
     = Returns (true, bordered_world).
Proof.
  split.
  - apply (padding_ignores_non_numbers minus_one no_parse "padding"
             ShadowEdges.AllEdges); [ simpl; tauto | reflexivity ].
  - apply (padding_ignores_non_numbers minus_one no_parse "paddingTop"
             ShadowEdges.Top); [ simpl; tauto | reflexivity ].
Defined.

(** X8: Arrival order does not matter: two [UpdatePadding] calls on
    different edges end in the same world in either order, and a second
    call on the same edge makes the first one invisible. *)
Theorem padding_updates_commute
  (u : double) (e1 e2 : ShadowEdges.t) (d1 d2 : double) (w : World) :
  exists w12 w21 w11 w1,
    (UpdatePadding u e1 d1 ;; UpdatePadding u e2 d2)%prop w = Returns (tt, w12)
    /\ (UpdatePadding u e2 d2 ;; UpdatePadding u e1 d1)%prop w
       = Returns (tt, w21)
    /\ (UpdatePadding u e1 d1 ;; UpdatePadding u e1 d2)%prop w
       = Returns (tt, w11)
    /\ UpdatePadding u e1 d2 w = Returns (tt, w1)
    /\ (e1 <> e2 -> same_world w12 w21)
    /\ same_world w11 w1.
Proof.
  do 4 eexists.
  cbv [UpdatePadding bind getNode putNode SetValue].
  split; [ reflexivity | ]. split; [ reflexivity | ].
  split; [ reflexivity | ]. split; [ reflexivity | ].
  split.
  - intros H. unfold same_world. cbn.
    repeat apply conj; try reflexivity.
    + intros e. now apply set_edge_swap.
    + intros p. destruct p; cbn; try reflexivity.
      do 2 f_equal. apply GetThickness_ext. intros e.
      now apply set_edge_swap.
  - unfold same_world. cbn.
    repeat apply conj; try reflexivity.
    + intros e. apply set_edge_twice.
    + intros p. destruct p; cbn; try reflexivity.
      do 2 f_equal. apply GetThickness_ext. intros e.
      apply set_edge_twice.
Qed.

Lemma padding_updates_commute_witness :
  exists w12 w21,
    (UpdatePadding minus_one ShadowEdges.Left (Double.of_Z 1) ;;
     UpdatePadding minus_one ShadowEdges.AllEdges (Double.of_Z 2))%prop
      fresh_world = Returns (tt, w12)
    /\ (UpdatePadding minus_one ShadowEdges.AllEdges (Double.of_Z 2) ;;
        UpdatePadding minus_one ShadowEdges.Left (Double.of_Z 1))%prop
         fresh_world = Returns (tt, w21)
    /\ same_world w12 w21.
Proof.
  destruct (padding_updates_commute minus_one ShadowEdges.Left
              ShadowEdges.AllEdges (Double.of_Z 1) (Double.of_Z 2)
              fresh_world)
    as (w12 & w21 & _ & _ & R12 & R21 & _ & _ & C & _).
  exists w12, w21.
  split; [ exact R12 | split; [ exact R21 | apply C; discriminate ] ].
Defined.

(** X9: A corner update touches the node only: for each of the nine
    corner-radius names, [TryUpdateCornerRadiusOnNode] leaves the
    element as it was.  A number [asDouble] converts is written to that
    name's slot and a value that is not a number writes the sentinel,
    so that null, a string or a boolean unsets the corner; both return
    true.  An integer that [double] cannot hold exactly makes [asDouble]
    throw, and the call leaves through the exception. *)
Theorem corner_update_on_node_only
  (u : double) (std : string -> option double)
  (name : string) (corner : ShadowCorners.t) (v : dynamic) (w : World)
  (arm : In (name, corner) corner_names) :
  (forall d, number_value v = Some d ->
     TryUpdateCornerRadiusOnNode u std name v w
     = Returns (true,
                mkWorld
                  (with_m_cornerRadius (node w)
                     (set_corner (m_cornerRadius (node w)) corner d))
                  (element w)))
  /\ (isNumber v = false ->
      TryUpdateCornerRadiusOnNode u std name v w
      = Returns (true,
                 mkWorld
                   (with_m_cornerRadius (node w)
                      (set_corner (m_cornerRadius (node w)) corner u))
                   (element w)))
  /\ (inexact_integer v = true ->
      TryUpdateCornerRadiusOnNode u std name v w = Throws).
Proof.
  unfold corner_names in arm. simpl in arm.
  repeat (destruct arm as [[= <- <-] | arm];
          [ repeat apply conj;
            [ intros d N;
              destruct (number_value_some std v d N) as [I A]
            | intros I
            | intros X;
              destruct (inexact_integer_throws std v X) as [I A] ];
            unfold TryUpdateCornerRadiusOnNode;
            cbn [String.eqb Ascii.eqb Bool.eqb];
            unfold UpdateCornerRadiusValueOnNode, bind, lift;
            rewrite I; try rewrite A; reflexivity | ]).
  destruct arm.
Qed.

Lemma corner_update_on_node_only_witness :
  TryUpdateCornerRadiusOnNode minus_one no_parse "borderRadius" DNull
    bordered_world
  = Returns (true,
             mkWorld
               (with_m_cornerRadius (node bordered_world)
                  (set_corner (m_cornerRadius (node bordered_world))
                     ShadowCorners.AllCorners minus_one))
               (element bordered_world))
  /\ TryUpdateCornerRadiusOnNode minus_one no_parse "borderTopLeftRadius"
       (DInt64 8) bordered_world
     = Returns (true,
                mkWorld
                  (with_m_cornerRadius (node bordered_world)
                     (set_corner (m_cornerRadius (node bordered_world))
                        ShadowCorners.TopLeft (Double.of_Z 8)))
                  (element bordered_world))
  /\ TryUpdateCornerRadiusOnNode minus_one no_parse "borderTopLeftRadius"
       (DInt64 9007199254740993) bordered_world
     = Throws.
Proof.
  destruct (corner_update_on_node_only minus_one no_parse "borderRadius"
              ShadowCorners.AllCorners DNull bordered_world)
    as (_ & Reset & _); [ simpl; tauto | ].
  destruct (corner_update_on_node_only minus_one no_parse
              "borderTopLeftRadius" ShadowCorners.TopLeft (DInt64 8)
              bordered_world)
    as (Number & _ & _); [ simpl; tauto | ].
  destruct (corner_update_on_node_only minus_one no_parse
              "borderTopLeftRadius" ShadowCorners.TopLeft
              (DInt64 9007199254740993) bordered_world)
    as (_ & _ & Inexact); [ simpl; tauto | ].
  repeat apply conj.
  - apply Reset. reflexivity.
  - apply Number. reflexivity.
  - apply Inexact. reflexivity.
Defined.

(** X10: The mouse flags: for "onMouseEnter", "onMouseLeave" and
    "onMouseMove", a null value stores false and a boolean stores
    itself, in that name's flag only; the other two flags, the three
    arrays and the element are left as they were, and the call returns
    true. *)
Theorem mouse_flag_stored
  (stb : string -> option bool) (v : dynamic) (b : bool) (w : World)
  (value : v = DNull /\ b = false \/ v = DBool b) :
  TryUpdateMouseEvents stb "onMouseEnter" v w
  = Returns (true, mkWorld (with_m_onMouseEnter (node w) b) (element w))
  /\ TryUpdateMouseEvents stb "onMouseLeave" v w
     = Returns (true, mkWorld (with_m_onMouseLeave (node w) b) (element w))
  /\ TryUpdateMouseEvents stb "onMouseMove" v w
     = Returns (true, mkWorld (with_m_onMouseMove (node w) b) (element w)).
Proof.
  destruct value as [[-> ->] | ->]; repeat apply conj; reflexivity.
Qed.

Lemma mouse_flag_stored_witness :
  TryUpdateMouseEvents no_parse "onMouseLeave" (DBool true) fresh_world
  = Returns (true,
             mkWorld (with_m_onMouseLeave fresh_node true) fresh_element).
Proof.
  apply (mouse_flag_stored no_parse (DBool true) true fresh_world).
  right. reflexivity.
Defined.

(** X11: The mouse flags have an error path: for each of the three names an
    array or an object value makes [asBool] throw, so the call leaves
    through the exception, and so does a string folly cannot read as a
    boolean. *)
Theorem mouse_flag_throws
  (stb : string -> option bool) (name : string) (v : dynamic) (w : World)
  (mouse_name : In name (recognized GMouseEvents))
  (not_convertible :
     v = DArray \/ v = DObject \/ exists s, v = DString s /\ stb s = None) :
  TryUpdateMouseEvents stb name v w = Throws.
Proof.
  simpl in mouse_name.
  destruct mouse_name as [<- | [<- | [<- | []]]];
    destruct not_convertible as [-> | [-> | (s & -> & E)]];
    try reflexivity;
    unfold TryUpdateMouseEvents, mouse_flag, bind, lift; cbn; now rewrite E.
Qed.

Lemma mouse_flag_throws_witness :
  TryUpdateMouseEvents no_parse "onMouseMove" DArray fresh_world = Throws.
Proof.
  apply mouse_flag_throws; [ simpl; tauto | left; reflexivity ].
Defined.

(** Case analysis on every test a dispatcher makes. *)
Ltac split_tests :=
  repeat match goal with
         | |- context [String.eqb ?a ?b] => destruct (String.eqb a b)
         | |- context [if ?b then _ else _] => destruct b
         end.

(** Running the monad's plumbing. *)
Ltac run :=
  cbv [bind lift ret getString isNull isNumber isString asDouble
       IsValidColorValue padding_arm mouse_flag
       SetTextAlignment SetTextTrimming SetFlowDirection
       UpdateCornerRadiusValueOnNode UpdatePadding SetBorderThickness
       SetBorderBrush
       UpdateControlBackgroundResourceBrushes
       UpdateControlForegroundResourceBrushes
       UpdateControlBorderResourceBrushes refresh
       SetValue ClearValue getNode putNode
       get_BorderThickness get_BorderBrush].

(** X12: No accessor is reached without its type test: the eleven
    dispatchers other than character spacing and mouse events return
    normally for every property name and every world, whatever folly's
    string parsers would do, for every value that is not an integer
    [double] cannot hold exactly; the seven of them that convert no
    number (background, foreground, text alignment, text trimming, text
    decoration, flow direction, orientation) return normally for every
    value. *)
Theorem guarded_dispatchers_return
  (u : double) (std : string -> option double)
  (stb : string -> option bool) (decorations_supported : bool)
  (g : Group) (name : string) (v : dynamic) (w : World)
  (is_guarded : guarded g = true)
  (convertible : converts_no_number g = true \/ inexact_integer v = false) :
  exists handled w',
    try_apply u std stb decorations_supported g name v w
    = Returns (handled, w').
Proof.
  destruct g; try discriminate is_guarded;
    destruct convertible as [C | X]; try discriminate C; cbn [try_apply];
    cbv [TryUpdateBackgroundBrush TryUpdateForeground
         TryUpdateBorderProperties TryUpdatePadding
         TryUpdateCornerRadiusOnNode TryUpdateFontProperties
         TryUpdateTextAlignment TryUpdateTextTrimming
         TryUpdateTextDecorationLine TryUpdateFlowDirection
         TryUpdateOrientation];
    try destruct (find edgeTypeMap name);
    destruct v; run;
    try (cbn in X; apply negb_false_iff in X; rewrite ?X);
    split_tests; do 2 eexists; reflexivity.
Qed.

Lemma guarded_dispatchers_return_witness :
  (exists handled w',
     try_apply minus_one no_parse no_parse true GFont "fontSize"
       (DInt64 12) fresh_world
     = Returns (handled, w'))
  /\ (exists handled w',
        try_apply minus_one no_parse no_parse true GOrientation "orientation"
          (DInt64 9007199254740993) fresh_world
        = Returns (handled, w')).
Proof.
  split; apply guarded_dispatchers_return;
    try reflexivity; [ right | left ]; reflexivity.
Defined.

(** X13: Dispatch is exclusive: a name one group recognises is declined by
    every other group, which returns false and leaves the node and the
    element as they were.  The order in which an outer chain tries the
    groups therefore never changes which one applies a property. *)
Theorem other_groups_decline
  (u : double) (std : string -> option double)
  (stb : string -> option bool) (decorations_supported : bool)
  (g g' : Group) (name : string) (v : dynamic) (w : World)
  (recognized_by_g : In name (recognized g))
  (other : g' <> g) :
  try_apply u std stb decorations_supported g' name v w = Returns (false, w).
Proof.
  destruct g; simpl in recognized_by_g;
    repeat (destruct recognized_by_g as [<- | recognized_by_g];
            [ destruct g'; try reflexivity; now elim other | ]);
    destruct recognized_by_g.
Qed.

Lemma other_groups_decline_witness :
  try_apply minus_one no_parse no_parse true GPadding "borderWidth"
    (DInt64 2) fresh_world
  = Returns (false, fresh_world).
Proof.
  apply (other_groups_decline minus_one no_parse no_parse true GBorder).
  - simpl. tauto.
  - discriminate.
Defined.

(** X14: A recognised name is always reported handled: whenever a group's
    dispatcher returns for one of its own names, it returns true,
    whatever the value's type. *)
Theorem recognized_name_is_handled
  (u : double) (std : string -> option double)
  (stb : string -> option bool) (decorations_supported : bool)
  (g : Group) (name : string) (v : dynamic) (w w' : World) (handled : bool)
  (recognized_by_g : In name (recognized g))
  (returned :
     try_apply u std stb decorations_supported g name v w
     = Returns (handled, w')) :
  handled = true.
Proof.
  revert returned.
  destruct g; simpl in recognized_by_g;
    repeat (destruct recognized_by_g as [<- | recognized_by_g];
            [ cbn [try_apply];
              cbv [TryUpdateBackgroundBrush TryUpdateForeground
                   TryUpdateBorderProperties TryUpdatePadding
                   TryUpdateCornerRadiusOnNode TryUpdateFontProperties
                   TryUpdateTextAlignment TryUpdateTextTrimming
                   TryUpdateTextDecorationLine TryUpdateFlowDirection
                   TryUpdateCharacterSpacing TryUpdateOrientation
                   TryUpdateMouseEvents];
              cbn [String.eqb Ascii.eqb Bool.eqb find edgeTypeMap orb negb];
              destruct v; run; cbn [asBool negb];
              split_tests;
              repeat match goal with
                     | |- context [match Double.to_int32 ?d with _ => _ end] =>
                         destruct (Double.to_int32 d)
                     | |- context [match stb ?s with _ => _ end] =>
                         destruct (stb s)
                     end;
              split_tests; intros [= <- _] || discriminate; reflexivity | ]);
    destruct recognized_by_g.
Qed.

Lemma recognized_name_is_handled_witness :
  exists handled w',
    try_apply minus_one no_parse no_parse true GOrientation "orientation"
      (DBool true) fresh_world = Returns (handled, w')
    /\ handled = true.
Proof.
  exists true, fresh_world. split; [ reflexivity | ].
  apply (recognized_name_is_handled minus_one no_parse no_parse true
           GOrientation "orientation" (DBool true) fresh_world fresh_world
           true).
  - simpl. tauto.
  - reflexivity.
Defined.

(** X15: A value of the wrong type is skipped: for every group other than
    corner radius and mouse events and each of its names, a boolean or
    an array value is reported handled and changes nothing in the node
    or the element. *)
Theorem mismatched_type_is_skipped
  (u : double) (std : string -> option double)
  (stb : string -> option bool) (decorations_supported : bool)
  (g : Group) (name : string) (v : dynamic) (w : World)
  (skipping : skips_mismatch g = true)
  (recognized_by_g : In name (recognized g))
  (mismatch : v = DArray \/ exists b, v = DBool b) :
  try_apply u std stb decorations_supported g name v w = Returns (true, w).
Proof.
  destruct mismatch as [-> | [b ->]];
    (destruct g; try discriminate skipping; simpl in recognized_by_g;
     repeat (destruct recognized_by_g as [<- | recognized_by_g];
             [ try reflexivity; now destruct decorations_supported | ]);
     destruct recognized_by_g).
Qed.

Lemma mismatched_type_is_skipped_witness :
  try_apply minus_one no_parse no_parse true GBorder "borderWidth"
    (DBool true) bordered_world
  = Returns (true, bordered_world).
Proof.
  apply mismatched_type_is_skipped.
  - reflexivity.
  - simpl. tauto.
  - right. now exists true.
Defined.

(** X16: The applied thickness never goes stale: if the element's Padding
    and BorderThickness, where it has them, are the resolutions of the
    node's padding and border arrays, they still are after any
    dispatcher of any group has returned, for every name and value. *)
Theorem applied_thickness_stays_in_sync
  (u : double) (std : string -> option double)
  (stb : string -> option bool) (decorations_supported : bool)
  (g : Group) (name : string) (v : dynamic) (w w' : World) (handled : bool)
  (in_sync : applied_in_sync u w)
  (returned :
     try_apply u std stb decorations_supported g name v w
     = Returns (handled, w')) :
  applied_in_sync u w'.
Proof.
  revert returned. destruct in_sync as [P B].
  destruct g; cbn [try_apply];
    cbv [TryUpdateBackgroundBrush TryUpdateForeground
         TryUpdateBorderProperties TryUpdatePadding
         TryUpdateCornerRadiusOnNode TryUpdateFontProperties
         TryUpdateTextAlignment TryUpdateTextTrimming
         TryUpdateTextDecorationLine TryUpdateFlowDirection
         TryUpdateCharacterSpacing TryUpdateOrientation
         TryUpdateMouseEvents];
    try destruct (find edgeTypeMap name);
    destruct v; run; cbn [asBool negb];
    split_tests;
    repeat match goal with
           | |- context [match Double.to_int32 ?d with _ => _ end] =>
               destruct (Double.to_int32 d)
           | |- context [match stb ?s with _ => _ end] =>
               destruct (stb s)
           end;
    split_tests;
    (intros [= _ <-] || discriminate);
    (split; cbn; solve [ assumption | right; reflexivity ]).
Qed.

Lemma applied_thickness_stays_in_sync_witness :
  exists w',
    try_apply minus_one no_parse no_parse true GBorder "borderTopWidth"
      (DInt64 2) bordered_world = Returns (true, w')
    /\ applied_in_sync minus_one w'.
Proof.
  eexists. split; [ reflexivity | ].
  apply (applied_thickness_stays_in_sync minus_one no_parse no_parse true
           GBorder "borderTopWidth" (DInt64 2) bordered_world _ true).
  - split; [ left | right ]; reflexivity.
  - reflexivity.
Defined.

(** X17: Flow direction: "writingDirection" and "direction" are the same
    property, and a string other than "rtl" and "ltr" (such as "auto"
    or "inherit") clears FlowDirection exactly like null does. *)
Theorem flow_direction_aliases
  (v : dynamic) (s : string) (w : World)
  (not_a_token : ~ In s direction_tokens) :
  TryUpdateFlowDirection "writingDirection" v w
  = TryUpdateFlowDirection "direction" v w
  /\ TryUpdateFlowDirection "direction" (DString s) w
     = TryUpdateFlowDirection "direction" DNull w
  /\ TryUpdateFlowDirection "direction" DNull w
     = Returns (true,
                mkWorld (node w)
                  (with_local (element w) FlowDirectionProperty None)).
Proof.
  repeat apply conj; try reflexivity.
  unfold TryUpdateFlowDirection. cbn. run.
  unfold direction_tokens in not_a_token. name_differs not_a_token.
  reflexivity.
Qed.

Lemma flow_direction_aliases_witness :
  TryUpdateFlowDirection "direction" (DString "auto") horizontal_world
  = TryUpdateFlowDirection "direction" DNull horizontal_world.
Proof.
  apply (proj1 (proj2 (flow_direction_aliases DNull "auto" horizontal_world
                         ltac:(simpl; intros [H | [H | []]];
                               discriminate H)))).
Defined.

(** X18: Text decorations: on a platform without the feature every value is
    reported handled and nothing changes; with it, every string sets
    the property to a mask of the Underline and Strikethrough bits only,
    and a string outside the four tokens sets it to None. *)
Theorem text_decoration_line
  (v : dynamic) (s : string) (w : World) :
  TryUpdateTextDecorationLine false "textDecorationLine" v w
  = Returns (true, w)
  /\ exists flags,
       TryUpdateTextDecorationLine true "textDecorationLine" (DString s) w
       = Returns (true,
                  mkWorld (node w)
                    (with_local (element w) TextDecorationsProperty
                       (Some (VTextDecorations flags))))
       /\ Z.lor flags
            (Z.lor TextDecorations.Underline TextDecorations.Strikethrough)
          = Z.lor TextDecorations.Underline TextDecorations.Strikethrough
       /\ (~ In s textDecorationLine_tokens -> flags = TextDecorations.None).
Proof.
  split; [ reflexivity | ].
  unfold TryUpdateTextDecorationLine. cbn. run.
  unfold textDecorationLine_tokens.
  destruct (s =? "none") eqn:E1;
    [ | destruct (s =? "underline") eqn:E2;
        [ | destruct (s =? "line-through") eqn:E3;
            [ | destruct (s =? "underline line-through") eqn:E4 ] ] ];
    eexists; (split; [ reflexivity | split; [ reflexivity | ] ]);
    try reflexivity; intros H; elim H; simpl;
    repeat match goal with
           | E : (_ =? _) = true |- _ => apply String.eqb_eq in E; subst
           end; tauto.
Qed.

(** X19: Unrecognised tokens fall back to a fixed value rather than being
    ignored: for every string outside its tokens, "textAlign" sets
    DetectFromContent and "ellipsizeMode" sets None; "head", "middle"
    and "tail" all set CharacterEllipsis; and "fontStyle" sets Normal
    for every string other than "italic". *)
Theorem unrecognized_tokens_fall_back
  (std : string -> option double) (s : string) (w : World) :
  (~ In s textAlign_tokens ->
   TryUpdateTextAlignment "textAlign" (DString s) w
   = Returns (true,
              mkWorld (node w)
                (with_local (element w) TextAlignmentProperty
                   (Some (VTextAlignment TextAlignment.DetectFromContent)))))
  /\ (~ In s ellipsizeMode_tokens ->
      TryUpdateTextTrimming "ellipsizeMode" (DString s) w
      = Returns (true,
                 mkWorld (node w)
                   (with_local (element w) TextTrimmingProperty
                      (Some (VTextTrimming TextTrimming.None)))))
  /\ (In s ["head"; "middle"; "tail"] ->
      TryUpdateTextTrimming "ellipsizeMode" (DString s) w
      = Returns (true,
                 mkWorld (node w)
                   (with_local (element w) TextTrimmingProperty
                      (Some (VTextTrimming TextTrimming.CharacterEllipsis)))))
  /\ (s <> "italic" ->
      TryUpdateFontProperties std "fontStyle" (DString s) w
      = Returns (true,
                 mkWorld (node w)
                   (with_local (element w) FontStyleProperty
                      (Some (VFontStyle FontStyle.Normal))))).
Proof.
  repeat apply conj.
  - intros H. unfold TryUpdateTextAlignment. cbn. run.
    unfold textAlign_tokens in H. name_differs H. reflexivity.
  - intros H. unfold TryUpdateTextTrimming. cbn. run.
    unfold ellipsizeMode_tokens in H. name_differs H. reflexivity.
  - simpl. intros [<- | [<- | [<- | []]]]; reflexivity.
  - intros H. unfold TryUpdateFontProperties. cbn. run.
    apply String.eqb_neq in H. now rewrite H.
Qed.

Lemma unrecognized_tokens_fall_back_witness :
  TryUpdateTextAlignment "textAlign" (DString "start") fresh_world
  = Returns (true,
             mkWorld fresh_node
               (with_local fresh_element TextAlignmentProperty
                  (Some (VTextAlignment TextAlignment.DetectFromContent))))
  /\ TryUpdateTextTrimming "ellipsizeMode" (DString "middle") fresh_world
     = Returns (true,
                mkWorld fresh_node
                  (with_local fresh_element TextTrimmingProperty
                     (Some (VTextTrimming TextTrimming.CharacterEllipsis)))).
Proof.
  destruct (unrecognized_tokens_fall_back no_parse "start" fresh_world)
    as (A & _).
  destruct (unrecognized_tokens_fall_back no_parse "middle" fresh_world)
    as (_ & _ & T & _).
  split.
  - apply A. simpl. intros H.
    repeat (destruct H as [H | H]; [ discriminate H | ]). exact H.
  - apply T. simpl. tauto.
Defined.

(** X20: Every font weight the "fontWeight" arm applies is one of the nine
    hundreds from 100 to 900, whatever the string; "normal" applies the
    same weight as "400" and "bold" the same as "700". *)
Theorem fontWeight_is_a_hundred
  (std : string -> option double) (s : string) (w : World) :
  (exists weight,
     TryUpdateFontProperties std "fontWeight" (DString s) w
     = Returns (true,
                mkWorld (node w)
                  (with_local (element w) FontWeightProperty
                     (Some (VFontWeight (FontWeight.mk weight)))))
     /\ (100 <= weight <= 900)%Z /\ (weight mod 100 = 0)%Z)
  /\ TryUpdateFontProperties std "fontWeight" (DString "normal") w
     = TryUpdateFontProperties std "fontWeight" (DString "400") w
  /\ TryUpdateFontProperties std "fontWeight" (DString "bold") w
     = TryUpdateFontProperties std "fontWeight" (DString "700") w.
Proof.
  split; [ | split; reflexivity ].
  unfold TryUpdateFontProperties. cbn. run. unfold fontWeight_of.
  split_tests; eexists; (split; [ reflexivity | ]);
    cbn; split; (reflexivity || (split; discriminate)).
Qed.

(** X21: Background and foreground keep the resource brushes in step: when
    [TryUpdateBackgroundBrush] ("backgroundColor") or
    [TryUpdateForeground] ("color") returns, either nothing changed, or
    exactly one refresh was added and it carries the brush the property
    now holds (none when it was cleared), while the node and every other
    property are as before. *)
Theorem brush_and_refresh_agree (v : dynamic) (w : World) :
  (exists w',
     TryUpdateBackgroundBrush "backgroundColor" v w = Returns (true, w')
     /\ (w' = w
         \/ (node w' = node w
             /\ refreshes (element w')
                = RefreshBackground (local_brush (element w') BackgroundProperty)
                  :: refreshes (element w)
             /\ forall p, p <> BackgroundProperty ->
                          local (element w') p = local (element w) p)))
  /\ (exists w',
        TryUpdateForeground "color" v w = Returns (true, w')
        /\ (w' = w
            \/ (node w' = node w
                /\ refreshes (element w')
                   = RefreshForeground
                       (local_brush (element w') ForegroundProperty)
                     :: refreshes (element w)
                /\ forall p, p <> ForegroundProperty ->
                             local (element w') p = local (element w) p))).
Proof.
  split; destruct v; eexists;
    (split;
     [ unfold TryUpdateBackgroundBrush, TryUpdateForeground; cbn;
       run; reflexivity | ]);
    cbn;
    solve [ left; reflexivity
          | right; repeat apply conj; try reflexivity;
            intros p H; destruct p; try reflexivity; now elim H ].
Qed.

(** X22: A width update never takes a brush away: if the element has a
    BorderBrush, it has the same one after [TryUpdateBorderProperties]
    has handled any of the seven border-width names with any value. *)
Theorem border_width_keeps_brush
  (u : double) (std : string -> option double)
  (name : string) (v : dynamic) (w w' : World) (brush : Brush)
  (handled : bool)
  (width_name : In name border_width_names)
  (has_brush : effective_BorderBrush (element w) = Some brush)
  (returned :
     TryUpdateBorderProperties u std name v w = Returns (handled, w')) :
  effective_BorderBrush (element w') = Some brush.
Proof.
  revert returned.
  destruct (border_width_name_in_map name width_name)
    as (NotColor & edge & InMap).
  unfold TryUpdateBorderProperties. rewrite NotColor, InMap.
  destruct v; run;
    try match goal with
        | |- context [Double.exact_int ?n] =>
            destruct (Double.exact_int n); [ | discriminate ]
        end;
    cbn [node element];
    try match goal with
        | |- context [effective_BorderBrush
                        (with_local (element w) BorderThicknessProperty ?x)] =>
            change (effective_BorderBrush
                      (with_local (element w) BorderThicknessProperty x))
              with (effective_BorderBrush (element w));
            rewrite has_brush; cbn [is_null]; rewrite andb_false_r
        end;
    intros [= _ <-]; exact has_brush.
Qed.

Lemma border_width_keeps_brush_witness :
  exists w',
    TryUpdateBorderProperties minus_one no_parse "borderWidth" (DInt64 4)
      (mkWorld fresh_node
         (with_local fresh_element BorderBrushProperty
            (Some (VBrush (BrushFrom (DInt64 255))))))
    = Returns (true, w')
    /\ effective_BorderBrush (element w') = Some (BrushFrom (DInt64 255)).
Proof.
  eexists. split; [ reflexivity | ].
  apply (border_width_keeps_brush minus_one no_parse "borderWidth" (DInt64 4)
           (mkWorld fresh_node
              (with_local fresh_element BorderBrushProperty
                 (Some (VBrush (BrushFrom (DInt64 255))))))
           _ (BrushFrom (DInt64 255)) true).
  - simpl. tauto.
  - reflexivity.
  - reflexivity.
Defined.

(** X23: Width first, colour second: after a border-width name has been
    handled with a number [asDouble] converts, which writes that name's
    edge slot, a null "borderColor" leaves the element with the default
    border brush exactly when the thickness resolved from the updated
    border array differs from the uniform 0, and with no brush
    otherwise, whatever brush it had before. *)
Theorem width_then_null_color
  (u : double) (std : string -> option double)
  (name : string) (edge : ShadowEdges.t) (v : dynamic) (d : double)
  (w : World)
  (width_name : In (name, edge) border_width_edges)
  (numeric : number_value v = Some d) :
  exists w',
    (TryUpdateBorderProperties u std name v ;;
     TryUpdateBorderProperties u std "borderColor" DNull)%prop w
    = Returns (true, w')
    /\ effective_BorderBrush (element w')
       = (if Thickness.neqb
               (GetThickness u (set_edge (m_border (node w)) edge d))
               (Thickness.FromUniformLength Double.zero)
          then Some GetDefaultBorderBrush else None)
    /\ m_border (node w') = set_edge (m_border (node w)) edge d.
Proof.
  destruct (border_width_edge_in_map name edge width_name)
    as (NotColor & InMap).
  destruct (number_value_some std v d numeric) as [N A].
  unfold TryUpdateBorderProperties. rewrite NotColor, InMap, N.
  cbn [String.eqb Ascii.eqb Bool.eqb].
  cbv [bind lift]. rewrite !A.
  cbv [bind lift ret isNull IsValidColorValue isNumber
       SetBorderThickness UpdateControlBorderResourceBrushes refresh
       SetValue ClearValue getNode putNode
       get_BorderThickness get_BorderBrush].
  cbn [node element effective_BorderThickness effective_BorderBrush
       local with_local with_refresh DependencyProperty_eqb
       m_border with_m_border].
  match goal with
  | |- context [if (?c && ?n)%bool then _ else _] => destruct (c && n)%bool
  end;
    cbn [node element effective_BorderThickness effective_BorderBrush
         local with_local with_refresh DependencyProperty_eqb
         m_border with_m_border];
    match goal with
    | |- context [Thickness.neqb ?a ?b] => destruct (Thickness.neqb a b)
    end;
    eexists; repeat apply conj; reflexivity.
Qed.

Lemma width_then_null_color_witness :
  exists w',
    (TryUpdateBorderProperties minus_one no_parse "borderWidth" (DInt64 0) ;;
     TryUpdateBorderProperties minus_one no_parse "borderColor" DNull)%prop
      bordered_world = Returns (true, w')
    /\ effective_BorderBrush (element w') = None.
Proof.
  destruct (width_then_null_color minus_one no_parse "borderWidth"
              ShadowEdges.AllEdges (DInt64 0) Double.zero bordered_world)
    as (w' & Run & Brush & _).
  - simpl. tauto.
  - reflexivity.
  - exists w'. split; [ exact Run | ].
    rewrite Brush. reflexivity.
Defined.

(** ** Integers through [double] *)

Lemma digits2_pos_bounds (p : positive) :
  (2 ^ (Zpos (digits2_pos p) - 1) <= Zpos p < 2 ^ Zpos (digits2_pos p))%Z.
Proof.
  induction p as [p IH | p IH | ]; cbn [digits2_pos];
    [ | | split; reflexivity ];
    rewrite Pos2Z.inj_succ;
    replace (Z.succ (Zpos (digits2_pos p)) - 1)%Z
      with (Z.succ (Zpos (digits2_pos p) - 1))%Z by lia;
    rewrite !Z.pow_succ_r by lia; lia.
Qed.

Lemma digits2_pos_int32 (p : positive) :
  (Zpos p <= 2147483648)%Z -> (Zpos (digits2_pos p) <= 32)%Z.
Proof.
  intros H. pose proof (digits2_pos_bounds p) as [L _].
  destruct (Z.le_gt_cases (Zpos (digits2_pos p)) 32) as [|G]; [ easy | ].
  exfalso.
  assert (2 ^ 32 <= 2 ^ (Zpos (digits2_pos p) - 1))%Z
    by (apply Z.pow_le_mono_r; lia).
  change (2 ^ 32)%Z with 4294967296%Z in *. lia.
Qed.

Lemma iter_xO_digits (p d : positive) :
  digits2_pos (Pos.iter xO p d) = (digits2_pos p + d)%positive.
Proof.
  induction d as [|d IH] using Pos.peano_ind.
  - cbn. now rewrite Pos.add_1_r.
  - rewrite Pos.iter_succ. cbn [digits2_pos]. rewrite IH. lia.
Qed.

Lemma iter_xO_value (p d : positive) :
  Zpos (Pos.iter xO p d) = (Zpos p * 2 ^ Zpos d)%Z.
Proof.
  induction d as [|d IH] using Pos.peano_ind.
  - cbn. lia.
  - rewrite Pos.iter_succ, Pos2Z.inj_xO, IH, Pos2Z.inj_succ,
      Z.pow_succ_r by lia. ring.
Qed.

Lemma binary_round_int32 (s : bool) (p : positive) :
  (Zpos p <= 2147483648)%Z ->
  exists d,
    binary_round Double.prec Double.emax s p 0
    = S754_finite s (Pos.iter xO p d) (Zneg d).
Proof.
  intros H. pose proof (digits2_pos_int32 p H) as K.
  unfold binary_round, shl_align.
  assert (F : forall k, (0 < k <= 53)%Z ->
                        fexp Double.prec Double.emax k = (k - 53)%Z)
    by (intros k Hk; unfold fexp, emin, Double.prec, Double.emax; lia).
  rewrite Z.add_0_r, F by lia.
  destruct (Zpos (digits2_pos p) - 53 - 0)%Z as [ | q | d] eqn:E; try lia.
  exists d.
  replace (Zpos (digits2_pos p) - 53)%Z with (Zneg d) by lia.
  unfold binary_round_aux, shr_fexp.
  cbn [Zdigits2 shr_record_of_loc]. rewrite iter_xO_digits.
  replace (Zpos (digits2_pos p + d) + Zneg d)%Z
    with (Zpos (digits2_pos p)) by lia.
  rewrite F by lia.
  replace (Zpos (digits2_pos p) - 53 - Zneg d)%Z with 0%Z by lia.
  cbn [shr shr_m loc_of_shr_record round_nearest_even Zdigits2
       shr_record_of_loc].
  rewrite iter_xO_digits.
  replace (Zpos (digits2_pos p + d) + Zneg d)%Z
    with (Zpos (digits2_pos p)) by lia.
  rewrite F by lia.
  replace (Zpos (digits2_pos p) - 53 - Zneg d)%Z with 0%Z by lia.
  cbn [shr shr_m].
  replace (Zneg d <=? Double.emax - Double.prec)%Z with true; [ reflexivity | ].
  symmetry. apply Z.leb_le. unfold Double.emax, Double.prec. lia.
Qed.

Lemma trunc_of_Z (n : Z) :
  (- 2147483648 <= n <= 2147483647)%Z ->
  Double.trunc (Double.of_Z n) = Some n.
Proof.
  intros H. unfold Double.of_Z, binary_normalize.
  destruct n as [ | p | p]; [ reflexivity | | ].
  - destruct (binary_round_int32 false p) as [d ->]; [ lia | ].
    cbn [Double.trunc]. rewrite Z.shiftr_div_pow2 by lia.
    rewrite iter_xO_value, Z.div_mul by lia. reflexivity.
  - destruct (binary_round_int32 true p) as [d ->]; [ lia | ].
    cbn [Double.trunc]. rewrite Z.shiftr_div_pow2 by lia.
    rewrite iter_xO_value, Z.div_mul by lia. reflexivity.
Qed.

Lemma exact_int_int32 (n : Z) :
  (- 2147483648 <= n <= 2147483647)%Z -> Double.exact_int n = true.
Proof.
  intros H. unfold Double.exact_int. rewrite (trunc_of_Z n H).
  apply Z.eqb_refl.
Qed.

Lemma to_int32_of_Z (n : Z) :
  (- 2147483648 <= n <= 2147483647)%Z ->
  Double.to_int32 (Double.of_Z n) = Some n.
Proof.
  intros H. unfold Double.to_int32. rewrite (trunc_of_Z n H).
  replace (- 2147483648 <=? n)%Z with true by (symmetry; apply Z.leb_le; lia).
  replace (n <=? 2147483647)%Z with true by (symmetry; apply Z.leb_le; lia).
  reflexivity.
Qed.

(** X24: Character spacing through [double] and back: for every integer
    value that fits [int32_t], "letterSpacing" and "characterSpacing"
    store exactly that integer as the element's CharacterSpacing and
    change nothing else; the conversion to [double] and the truncating
    cast lose nothing. *)
Theorem character_spacing_integer
  (std : string -> option double) (n : Z) (w : World)
  (fits : (- 2147483648 <= n <= 2147483647)%Z) :
  TryUpdateCharacterSpacing std "letterSpacing" (DInt64 n) w
  = Returns (true,
             mkWorld (node w)
               (with_local (element w) CharacterSpacingProperty
                  (Some (VInt32 n))))
  /\ TryUpdateCharacterSpacing std "characterSpacing" (DInt64 n) w
     = TryUpdateCharacterSpacing std "letterSpacing" (DInt64 n) w.
Proof.
  split; [ | reflexivity ].
  unfold TryUpdateCharacterSpacing. cbn [String.eqb Ascii.eqb Bool.eqb orb].
  run. now rewrite (exact_int_int32 n fits), (to_int32_of_Z n fits).
Qed.

Lemma character_spacing_integer_witness :
  TryUpdateCharacterSpacing no_parse "letterSpacing" (DInt64 (-3))
    fresh_world
  = Returns (true,
             mkWorld fresh_node
               (with_local fresh_element CharacterSpacingProperty
                  (Some (VInt32 (-3))))).
Proof.
  apply (proj1 (character_spacing_integer no_parse (-3) fresh_world
                  ltac:(split; discriminate))).
Defined.

(** X25: The cast in the character-spacing arm is unprotected: for both
    names, a numeric value that [asDouble] converts and that is an
    infinity or NaN, or whose truncation lies outside [int32_t], reaches
    [static_cast<int32_t>] and the call has no defined result; an
    integer that [double] cannot hold exactly never reaches the cast,
    because [asDouble] throws on it. *)
Theorem character_spacing_out_of_range
  (std : string -> option double) (name : string) (v : dynamic) (w : World)
  (spacing_name : In name (recognized GCharacterSpacing)) :
  (forall d,
     number_value v = Some d ->
     match Double.trunc d with
     | Some z => (z < - 2147483648 \/ 2147483647 < z)%Z
     | None => True
     end ->
     TryUpdateCharacterSpacing std name v w = Undefined)
  /\ (inexact_integer v = true ->
      TryUpdateCharacterSpacing std name v w = Throws).
Proof.
  assert (Name : ((name =? "letterSpacing")
                  || (name =? "characterSpacing"))%bool = true).
  { simpl in spacing_name.
    destruct spacing_name as [<- | [<- | []]]; reflexivity. }
  split.
  - intros d numeric out_of_range.
    assert (T : Double.to_int32 d = None).
    { unfold Double.to_int32.
      destruct (Double.trunc d) as [z | ]; [ | easy ].
      destruct out_of_range as [L | G].
      - replace (- 2147483648 <=? z)%Z with false
          by (symmetry; apply Z.leb_gt; lia). reflexivity.
      - replace (z <=? 2147483647)%Z with false
          by (symmetry; apply Z.leb_gt; lia). now rewrite andb_false_r. }
    destruct (number_value_some std v d numeric) as [N A].
    unfold TryUpdateCharacterSpacing. rewrite Name, N.
    cbv [bind lift]. now rewrite A, T.
  - intros X. destruct (inexact_integer_throws std v X) as [N A].
    unfold TryUpdateCharacterSpacing. rewrite Name, N.
    cbv [bind lift]. now rewrite A.
Qed.

Lemma character_spacing_out_of_range_witness :
  TryUpdateCharacterSpacing no_parse "letterSpacing"
    (DDouble (S754_infinity false)) fresh_world = Undefined
  /\ TryUpdateCharacterSpacing no_parse "characterSpacing"
       (DInt64 4294967296) fresh_world = Undefined
  /\ TryUpdateCharacterSpacing no_parse "characterSpacing"
       (DInt64 9007199254740993) fresh_world = Throws.
Proof.
  repeat apply conj.
  - apply (proj1 (character_spacing_out_of_range no_parse "letterSpacing"
                    (DDouble (S754_infinity false)) fresh_world
                    ltac:(simpl; tauto))
             (S754_infinity false)); [ reflexivity | exact I ].
  - apply (proj1 (character_spacing_out_of_range no_parse "characterSpacing"
                    (DInt64 4294967296) fresh_world ltac:(simpl; tauto))
             (Double.of_Z 4294967296)); [ reflexivity | right; reflexivity ].
  - apply (proj2 (character_spacing_out_of_range no_parse "characterSpacing"
                    (DInt64 9007199254740993) fresh_world
                    ltac:(simpl; tauto))).
    reflexivity.
Defined.

Lemma set_edge_slot_ok (u : double) (a : EdgeArray) (edge : ShadowEdges.t)
  (d : double) :
  (forall e, slot_ok u (a e) = true) -> slot_ok u d = true ->
  forall e, slot_ok u (set_edge a edge d e) = true.
Proof.
  intros A D e. unfold set_edge. now destruct (ShadowEdges.eqb edge e).
Qed.

Lemma set_corner_slot_ok (u : double) (a : CornerArray)
  (corner : ShadowCorners.t) (d : double) :
  (forall k, slot_ok u (a k) = true) -> slot_ok u d = true ->
  forall k, slot_ok u (set_corner a corner d k) = true.
Proof.
  intros A D k. unfold set_corner. now destruct (ShadowCorners.eqb corner k).
Qed.

Lemma nonneg_slot_ok (u d : double) :
  Double.leb Double.zero d = true -> slot_ok u d = true.
Proof. intros H. unfold slot_ok. rewrite H. apply orb_true_r. Qed.

(** X26: The dispatchers keep the data model: with a sentinel that
    compares equal to itself, if every slot of the node's padding,
    border and corner arrays is the sentinel or a number [>= 0], and the
    value carries no negative or NaN number, the same holds after any
    dispatcher of any group has returned. *)
Theorem dispatchers_keep_slots_valid
  (u : double) (std : string -> option double)
  (stb : string -> option bool) (decorations_supported : bool)
  (g : Group) (name : string) (v : dynamic) (w w' : World) (handled : bool)
  (sentinel_recognized : (u == u)%double = true)
  (slots : arrays_ok u w)
  (value : value_ok v = true)
  (returned :
     try_apply u std stb decorations_supported g name v w
     = Returns (handled, w')) :
  arrays_ok u w'.
Proof.
  revert returned. destruct slots as (P & B & C).
  assert (U : slot_ok u u = true)
    by (unfold slot_ok; now rewrite sentinel_recognized).
  assert (Z : slot_ok u Double.zero = true) by now apply nonneg_slot_ok.
  destruct g; cbn [try_apply];
    cbv [TryUpdateBackgroundBrush TryUpdateForeground
         TryUpdateBorderProperties TryUpdatePadding
         TryUpdateCornerRadiusOnNode TryUpdateFontProperties
         TryUpdateTextAlignment TryUpdateTextTrimming
         TryUpdateTextDecorationLine TryUpdateFlowDirection
         TryUpdateCharacterSpacing TryUpdateOrientation
         TryUpdateMouseEvents];
    try destruct (find edgeTypeMap name);
    destruct v; cbn in value;
    try (apply (nonneg_slot_ok u) in value);
    run; cbn [asBool negb];
    split_tests;
    repeat match goal with
           | |- context [match Double.to_int32 ?d with _ => _ end] =>
               destruct (Double.to_int32 d)
           | |- context [match stb ?s with _ => _ end] =>
               destruct (stb s)
           end;
    split_tests;
    (intros [= _ <-] || discriminate);
    (repeat apply conj; cbn;
     solve [ assumption
           | apply set_edge_slot_ok; assumption
           | apply set_corner_slot_ok; assumption ]).
Qed.

Lemma dispatchers_keep_slots_valid_witness :
  exists w',
    try_apply minus_one no_parse no_parse true GCornerRadius
      "borderTopLeftRadius" (DString "round") bordered_world
    = Returns (true, w')
    /\ arrays_ok minus_one w'.
Proof.
  eexists. split; [ reflexivity | ].
  apply (dispatchers_keep_slots_valid minus_one no_parse no_parse true
           GCornerRadius "borderTopLeftRadius" (DString "round")
           bordered_world _ true).
  - reflexivity.
  - repeat apply conj; intros []; reflexivity.
  - reflexivity.
  - reflexivity.
Defined.
